(** * transform_markdown.py: the report-to-Markdown line rewriter

    A shallow embedding of [transform_content] and [check_if_transformed]
    from [docs/old_2/transform_markdown.py], and the properties of the
    natural-language specification that concern them.

    A Python [str] is a sequence of Unicode code points; it is modelled as a
    list of code points ([N]).  The character classes used by [str.strip],
    [str.splitlines] and the [re] module ([\s]) are the ones of CPython
    ([Py_UNICODE_ISSPACE], [_PyUnicode_IsLinebreak]).  The table behind [\d]
    ([Py_UNICODE_ISDECIMAL], the Unicode category Nd) depends on the version
    of the Unicode database and is a parameter of the development. *)

From Stdlib Require Import String Ascii.
From Stdlib Require Import List NArith Bool Arith Lia.
Import ListNotations.

(** ** Strings *)

Abbreviation char := N (only parsing).
Abbreviation str := (list N) (only parsing).

(** A literal of the source, as a sequence of code points. *)
Definition py (s : string) : str := map N_of_ascii (list_ascii_of_string s).

Definition LF : char := 10%N.
Definition CR : char := 13%N.
Definition star : char := 42%N.
Definition dash : char := 45%N.
Definition dot_char : char := 46%N.
Definition colon : char := 58%N.
Definition space : char := 32%N.

(** [Py_UNICODE_ISSPACE]: what [str.strip()] removes and what [\s] matches. *)
Definition isspace (c : char) : bool :=
  ((9 <=? c) && (c <=? 13) || (28 <=? c) && (c <=? 32)
   || (c =? 133) || (c =? 160) || (c =? 5760)
   || (8192 <=? c) && (c <=? 8202)
   || (c =? 8232) || (c =? 8233) || (c =? 8239) || (c =? 8287)
   || (c =? 12288))%N.

(** [_PyUnicode_IsLinebreak]: where [str.splitlines()] cuts. *)
Definition is_linebreak (c : char) : bool :=
  ((10 <=? c) && (c <=? 13) || (28 <=? c) && (c <=? 30)
   || (c =? 133) || (c =? 8232) || (c =? 8233))%N.

Fixpoint takeWhile {A : Type} (p : A -> bool) (s : list A) : list A :=
  match s with
  | c :: r => if p c then c :: takeWhile p r else []
  | [] => []
  end.

Fixpoint dropWhile {A : Type} (p : A -> bool) (s : list A) : list A :=
  match s with
  | c :: r => if p c then dropWhile p r else s
  | [] => []
  end.

Definition lstrip (s : str) : str := dropWhile isspace s.
Definition rstrip (s : str) : str := rev (dropWhile isspace (rev s)).

(** [s.strip()] *)
Definition strip (s : str) : str := rstrip (lstrip s).

Fixpoint str_eqb (a b : str) : bool :=
  match a, b with
  | [], [] => true
  | x :: a', y :: b' => (x =? y)%N && str_eqb a' b'
  | _, _ => false
  end.

(** [s.startswith(p)] *)
Fixpoint startswith (p s : str) : bool :=
  match p, s with
  | [], _ => true
  | x :: p', y :: s' => (x =? y)%N && startswith p' s'
  | _ :: _, [] => false
  end.

Definition is_empty {A : Type} (s : list A) : bool :=
  match s with [] => true | _ => false end.

(** The test that [l.strip()] is the empty string. *)
Definition is_blank (l : str) : bool := is_empty (strip l).

(** [content.splitlines()]: cuts at every line break, [\r\n] counting as
    one; no empty line is produced after a final line break. *)
Fixpoint splitlines (s : str) : list str :=
  match s with
  | [] => []
  | c :: r =>
      if is_linebreak c then
        match r with
        | d :: r' =>
            if (c =? CR)%N && (d =? LF)%N then [] :: splitlines r'
            else [] :: splitlines r
        | [] => [[]]
        end
      else
        match splitlines r with
        | [] => [[c]]
        | l :: ls => (c :: l) :: ls
        end
  end.

(** [join] with a newline as separator. *)
Fixpoint join_lines (ls : list str) : str :=
  match ls with
  | [] => []
  | [l] => l
  | l :: ls' => l ++ LF :: join_lines ls'
  end.

(** ** Regular expressions

    Each pattern of the source is matched by [re.match], that is, at the
    start of the string.  The functions below return what the backtracking
    matcher returns: greedy [\s+], [\s*] and [\s{2,}] first take the whole
    run of white space, [.] matches every character but a newline, and [$]
    matches at the end of the string or before a newline that ends it. *)

Definition dot (c : char) : bool := negb (c =? LF)%N.

(** The string without the newline that ends it, if any: where [$] looks. *)
Definition chomp (s : str) : str :=
  match rev s with
  | c :: r => if (c =? LF)%N then rev r else s
  | [] => []
  end.

(** [re.match] of the pattern [^ \* \s+ ( .+? ) : $] (written here with
    blanks between its parts), giving [group(1)].  When nothing is left
    between the white space and the final colon, the matcher gives back one
    character of white space to [.+?]. *)
Definition match_2c (s : str) : option str :=
  match s with
  | c :: r =>
      if (c =? star)%N then
        let ws := takeWhile isspace r in
        match rev (chomp (dropWhile isspace r)) with
        | e :: g' =>
            if (e =? colon)%N then
              match rev g' with
              | [] =>
                  match rev ws with
                  | w :: _ :: _ => if dot w then Some [w] else None
                  | _ => None
                  end
              | g => if is_empty ws then None
                     else if forallb dot g then Some g else None
              end
            else None
        | [] => None
        end
      else None
  | [] => None
  end.

(** [re.match] of the pattern [^ \s{2,} \* \s+ ( .* )], giving [group(1)]. *)
Definition match_2d (line : str) : option str :=
  if 2 <=? length (takeWhile isspace line) then
    match dropWhile isspace line with
    | c :: r =>
        if (c =? star)%N && negb (is_empty (takeWhile isspace r))
        then Some (takeWhile dot (dropWhile isspace r))
        else None
    | [] => None
    end
  else None.

(** [re.match] of the pattern [^ ( \s* ) ( \* | - ) \s+ ( .* )], giving the
    three groups. *)
Definition sub_item_match (line : str) : option (str * char * str) :=
  match dropWhile isspace line with
  | m :: r =>
      if ((m =? star) || (m =? dash))%N
         && negb (is_empty (takeWhile isspace r))
      then Some (takeWhile isspace line, m, takeWhile dot (dropWhile isspace r))
      else None
  | [] => None
  end.

Section Digits.

(** [Py_UNICODE_ISDECIMAL], what [\d] matches. *)
Variable isdecimal : char -> bool.

(** After a first digit: more digits, then a period and a white space. *)
Fixpoint digits_dot_space (s : str) : bool :=
  match s with
  | c :: r =>
      (c =? dot_char)%N && match r with d :: _ => isspace d | [] => false end
      || isdecimal c && digits_dot_space r
  | [] => false
  end.

(** [re.match] of the pattern [^ \d+ \. \s+ .*], as a truth value. *)
Definition match_numbered (s : str) : bool :=
  match s with
  | c :: r => isdecimal c && digits_dot_space r
  | [] => false
  end.

(** ** The transformation *)

(** The two section flags of [transform_content]; one pair of variables
    serves both loops. *)
Record flags := Flags {
  in_key_findings : bool;
  in_actionable_recommendations : bool
}.

Definition no_section : flags := Flags false false.
Definition key_findings : flags := Flags true false.
Definition actionable : flags := Flags false true.

(** One iteration of the first loop: the flags after it and the line
    appended to [temp_lines]. *)
Definition pass1_step (st : flags) (line : str) : flags * str :=
  let stripped_line := strip line in
  if startswith (py "File Path: ") stripped_line then
    let path_content := strip (skipn (length (py "File Path: ")) stripped_line) in
    (st, py "## File Path: `" ++ path_content ++ py "`")
  else if str_eqb stripped_line (py "Overall Assessment:") then
    (Flags false false, py "## Overall Assessment")
  else if str_eqb stripped_line (py "Key Findings and Suggestions:") then
    (Flags true false, py "## Key Findings and Suggestions")
  else if str_eqb stripped_line (py "Actionable Recommendations:") then
    (Flags false true, py "## Actionable Recommendations")
  else
    match (if in_key_findings st then match_2c stripped_line else None) with
    | Some g => (st, py "### " ++ strip g)
    | None => (st, line)
    end.

(** The first loop: the flags it ends with, and [temp_lines]. *)
Fixpoint pass1 (st : flags) (lines : list str) : flags * list str :=
  match lines with
  | [] => (st, [])
  | line :: rest =>
      let '(st1, out) := pass1_step st line in
      let '(st2, outs) := pass1 st1 rest in
      (st2, out :: outs)
  end.

(** The variables of the second loop. *)
Record state2 := State2 {
  section : flags;
  current_h3_active : bool;
  processed_lines : list str
}.

(** [processed_lines.append(l)], with the flags the iteration leaves. *)
Definition emit (fl : flags) (h3 : bool) (st : state2) (l : str) : state2 :=
  State2 fl h3 (processed_lines st ++ [l]).

(** The end of an iteration of the second loop, reached when no rule has
    taken the line. *)
Definition pass2_default (st : state2) (original_line_stripped : str) : state2 :=
  if negb (is_empty original_line_stripped) then
    emit (section st) (current_h3_active st) st original_line_stripped
  else if is_empty (processed_lines st)
          || negb (is_blank (last (processed_lines st) [])) then
    emit (section st) (current_h3_active st) st []
  else st.

(** The rules of the second loop for a line under
    [in_actionable_recommendations]. *)
Definition pass2_actionable (st : state2) (line_content : str) : state2 :=
  let original_line_stripped := strip line_content in
  if match_numbered original_line_stripped then
    emit (section st) (current_h3_active st) st original_line_stripped
  else
    match sub_item_match line_content with
    | Some (leading_spaces, marker, g3) =>
        let rest := strip g3 in
        if 1 <=? length leading_spaces then
          if 8 <=? length leading_spaces then
            emit (section st) (current_h3_active st) st
                 (leading_spaces ++ marker :: space :: rest)
          else
            emit (section st) (current_h3_active st) st
                 (py "    " ++ marker :: space :: rest)
        else pass2_default st original_line_stripped
    | None => pass2_default st original_line_stripped
    end.

(** The iteration from the test of [in_actionable_recommendations] on. *)
Definition pass2_after_h3 (st : state2) (line_content : str) : state2 :=
  if in_actionable_recommendations (section st) then
    pass2_actionable st line_content
  else pass2_default st (strip line_content).

(** One iteration of the second loop. *)
Definition pass2_step (st : state2) (line_content : str) : state2 :=
  let original_line_stripped := strip line_content in
  if str_eqb original_line_stripped (py "## Key Findings and Suggestions") then
    emit (Flags true false) false st original_line_stripped
  else if str_eqb original_line_stripped (py "## Actionable Recommendations") then
    emit (Flags false true) false st original_line_stripped
  else if startswith (py "## ") original_line_stripped then
    emit (Flags false false) false st original_line_stripped
  else if startswith (py "### ") original_line_stripped then
    emit (section st) true st original_line_stripped
  else
    match (if in_key_findings (section st) && current_h3_active st
           then match_2d line_content else None) with
    | Some g => emit (section st) (current_h3_active st) st
                     (py "- " ++ strip g)
    | None => pass2_after_h3 st line_content
    end.

(** The second loop. *)
Definition pass2 (st : state2) (temp_lines : list str) : state2 :=
  fold_left pass2_step temp_lines st.

(** Removal of the blank lines that start [processed_lines]. *)
Definition drop_leading_blank (pl : list str) : list str :=
  match pl with
  | l0 :: tl => if is_blank l0 then
                  (fix skip (ls : list str) : list str :=
                     match ls with
                     | l :: ls' => if is_blank l then skip ls' else ls
                     | [] => []
                     end) tl
                else pl
  | [] => []
  end.

(** One iteration of the loop that fills [deduped_blank_lines]. *)
Definition dedup_step (deduped : list str) (l : str) : list str :=
  if is_blank l && negb (is_empty deduped) && is_blank (last deduped [])
  then deduped
  else deduped ++ [l].

(** The loop that fills [deduped_blank_lines]. *)
Definition dedup_blank (pl : list str) : list str :=
  fold_left dedup_step pl [].

(** The run of newlines being read is written out: as it is when shorter
    than three, as two newlines otherwise. *)
Definition flush_newlines (n : nat) : str :=
  if 3 <=? n then [LF; LF] else repeat LF n.

Fixpoint sub_newlines_from (n : nat) (s : str) : str :=
  match s with
  | [] => flush_newlines n
  | c :: r =>
      if (c =? LF)%N then sub_newlines_from (S n) r
      else flush_newlines n ++ c :: sub_newlines_from 0 r
  end.

(** [re.sub]: every run of three or more newlines becomes two newlines. *)
Definition sub_newlines (s : str) : str := sub_newlines_from 0 s.

(** The lines the second loop leaves in [processed_lines]. *)
Definition processed_of (content : str) : list str :=
  let '(st, temp_lines) := pass1 no_section (splitlines content) in
  processed_lines (pass2 (State2 st false []) temp_lines).

(** [transform_content(content)] *)
Definition transform_content (content : str) : str :=
  let deduped_blank_lines := dedup_blank (drop_leading_blank (processed_of content)) in
  sub_newlines (strip (join_lines deduped_blank_lines)).

End Digits.

(** The digits of ASCII, an instance of the digit table for examples. *)
Definition ascii_digit (c : char) : bool := ((48 <=? c) && (c <=? 57))%N.

(** ** Reading a file line by line

    [check_if_transformed] opens the file in text mode and iterates over
    it.  What it sees is a sequence of lines that ends with the end of the
    file or with an exception ([open] failing is an exception before the
    first line). *)
Inductive reading :=
| Eof
| Failure
| Line (l : str) (rest : reading).

(** [check_if_transformed(file_path)], on what reading the file gives. *)
Fixpoint check_if_transformed (f : reading) : bool :=
  match f with
  | Eof => false
  | Failure => false
  | Line line rest =>
      let stripped_line := strip line in
      if is_empty stripped_line then check_if_transformed rest
      else startswith (py "## File Path: `") stripped_line
  end.

(** The lines a text file with the given content yields, each with its line
    end: in text mode [\r\n] and [\r] are read as [\n], and only [\n] ends
    a line. *)
Fixpoint readlines (s : str) : list str :=
  match s with
  | [] => []
  | c :: r =>
      if (c =? LF)%N then [LF] :: readlines r
      else if (c =? CR)%N then
        match r with
        | d :: r' => if (d =? LF)%N then [LF] :: readlines r'
                     else [LF] :: readlines r
        | [] => [[LF]]
        end
      else
        match readlines r with
        | [] => [[c]]
        | l :: ls => (c :: l) :: ls
        end
  end.

(** The file with the given content, read without failure. *)
Definition reading_of (content : str) : reading :=
  fold_right Line Eof (readlines content).

(** ** Example documents *)

Definition empty_bullet_input : str :=
  py "Actionable Recommendations:" ++ LF :: py "  * ".

Definition scenario_input : str :=
  py "File Path: a.md" ++ LF :: py "Overall Assessment:" ++ LF :: py "Looks fine." ++ [LF].

Definition late_label_input : str :=
  py "intro" ++ LF :: py "  * item" ++ LF :: py "Actionable Recommendations:" ++ [LF].

Definition file_path_in_findings_input : str :=
  py "Key Findings and Suggestions:" ++ LF :: py "File Path: a.md" ++ LF :: py "* Title:" ++ [LF].

Definition report : str :=
  LF :: py "File Path: a.md" ++ LF :: py "Overall Assessment:" ++ LF ::
  py "Looks fine." ++ LF :: LF :: LF ::
  py "Key Findings and Suggestions:" ++ LF ::
  py "* Naming:" ++ LF :: py "  * use longer names" ++ LF ::
  py "    * even here" ++ LF ::
  py "Actionable Recommendations:" ++ LF ::
  py "1. Rename" ++ LF :: py "   * do the thing" ++ LF ::
  py "          - nested" ++ LF :: py "* top" ++ [LF].

(** ** Predicates of the specification *)

(** The string contains three newlines in a row. *)
Fixpoint has_triple_newline (s : str) : bool :=
  match s with
  | a :: r =>
      match r with
      | b :: c :: _ => (a =? LF)%N && (b =? LF)%N && (c =? LF)%N
      | _ => false
      end || has_triple_newline r
  | [] => false
  end.

(** The section a level-2 heading opens in the second loop. *)
Definition h2_flags (t : str) : flags :=
  if str_eqb t (py "## Key Findings and Suggestions") then Flags true false
  else if str_eqb t (py "## Actionable Recommendations") then Flags false true
  else Flags false false.

(** The two section flags are never set together. *)
Definition flags_ok (fl : flags) : Prop :=
  in_key_findings fl && in_actionable_recommendations fl = false.

(** The state with more lines before the ones already appended. *)
Definition prepend (pre : list str) (st : state2) : state2 :=
  State2 (section st) (current_h3_active st) (pre ++ processed_lines st).

(** No character of the line is a line break. *)
Definition no_linebreak (l : str) : bool :=
  forallb (fun c => negb (is_linebreak c)) l.

(** The string is one of the three labels of the report, or starts as a
    File Path line does. *)
Definition is_raw_label (t : str) : bool :=
  str_eqb t (py "Overall Assessment:")
  || str_eqb t (py "Key Findings and Suggestions:")
  || str_eqb t (py "Actionable Recommendations:")
  || startswith (py "File Path: ") t.

(** The trimmed line opens a section: it is a File Path line, one of the
    three labels, or a level-2 heading already. *)
Definition opens_section (t : str) : bool :=
  is_raw_label t || startswith (py "## ") t.

(** The first line of the document that is not blank, if there is one,
    opens a section. *)
Definition starts_with_section (content : str) : bool :=
  match dropWhile is_blank (splitlines content) with
  | [] => true
  | l :: _ => opens_section (strip l)
  end.

(** No line of the document is a bullet marker with nothing after it. *)
Definition no_empty_bullet (content : str) : bool :=
  forallb (fun l => negb (str_eqb (strip l) [star] || str_eqb (strip l) [dash]))
          (splitlines content).

(** What holds of every line the second loop appends: it has no line
    break, its trimmed form is no label, and it is empty when it is blank. *)
Definition entry_ok (e : str) : Prop :=
  no_linebreak e = true /\ is_raw_label (strip e) = false /\
  (is_blank e = true -> e = []).

(** No two blank lines follow each other. *)
Fixpoint no_adjacent_blank (ls : list str) : bool :=
  match ls with
  | a :: r =>
      match r with
      | b :: _ => negb (is_blank a && is_blank b)
      | [] => true
      end && no_adjacent_blank r
  | [] => true
  end.

(** What [lstrip] and [rstrip] do to a text, seen on its lines: the blank
    lines at that end go, and the first line left is trimmed at that end. *)
Fixpoint ltrim_lines (ls : list str) : list str :=
  match ls with
  | [] => []
  | l :: r => if is_blank l then ltrim_lines r else lstrip l :: r
  end.

Definition rtrim_lines (ls : list str) : list str :=
  match dropWhile is_blank (rev ls) with
  | [] => []
  | z :: r => rev (rstrip z :: r)
  end.

(** The lines of the text [transform_content] returns: the lines the
    second loop appended, without the blank ones at both ends, the first
    one trimmed on the left and the last one on the right. *)
Definition output_lines (isdecimal : char -> bool) (content : str) : list str :=
  rtrim_lines (ltrim_lines (processed_of isdecimal content)).

(** The shape of a trimmed string: empty, or with a character that is not
    white space at each end. *)
Inductive trimmed : str -> Prop :=
| trimmed_nil : trimmed []
| trimmed_one c : isspace c = false -> trimmed [c]
| trimmed_ends c a z : isspace c = false -> isspace z = false -> trimmed (c :: a ++ [z]).

(** ** The command line

    The script goes through the paths of [sys.argv[1:]].  A file is what
    the script can see of it: the text it holds, or, when it cannot be
    opened or decoded, the lines an iteration yields before the exception.
    A write either replaces the text or raises, leaving the file in some
    state of its own. *)

(** [s.endswith(suffix)] *)
Definition endswith (suffix s : str) : bool := startswith (rev suffix) (rev s).

(** [f.read()] in text mode: the text with [\r\n] and [\r] read as [\n]. *)
Definition read_text (content : str) : str := concat (readlines content).

Inductive file :=
| Text (content : str) (w : writing)
| Broken (seen : reading)
with writing :=
| Succeeds
| Raises (after : file).

(** [None] is a path for which [os.path.exists] is false. *)
Definition file_system := list N -> option file.

(** What iterating over the file gives [check_if_transformed]. *)
Definition lines_of (f : file) : reading :=
  match f with
  | Text content _ => reading_of content
  | Broken seen => seen
  end.

Definition update (fs : file_system) (path : str) (f : file) : file_system :=
  fun q => if str_eqb q path then Some f else fs q.

(** What [print] writes; the text of an exception is left out, and the
    three lines that end the script are one message. *)
Inductive message :=
| Usage
| SkippingNonMarkdown (file_path : str)
| FileNotFound (file_path : str)
| SkippingTransformed (file_path : str)
| Processing (file_path : str)
| ErrorReading (file_path : str)
| ErrorWriting (file_path : str)
| Summary (files_processed files_skipped : nat).

(** The files, what was printed, and the two counters of the script. *)
Record run := Run {
  files : file_system;
  printed : list message;
  files_processed_count : nat;
  files_skipped_count : nat
}.

(** How the script ends: [sys.exit(1)] after the usage line, or the end of
    the loop. *)
Inductive ending :=
| Exited (code : nat) (out : list message)
| Finished (r : run).

Section Main.

Variable isdecimal : char -> bool.

(** One iteration of the loop over [sys.argv[1:]]. *)
Definition main_step (r : run) (file_path : str) : run :=
  if negb (endswith (py ".md") file_path) then
    Run (files r) (printed r ++ [SkippingNonMarkdown file_path])
        (files_processed_count r) (S (files_skipped_count r))
  else
    match files r file_path with
    | None =>
        Run (files r) (printed r ++ [FileNotFound file_path])
            (files_processed_count r) (files_skipped_count r)
    | Some f =>
        if check_if_transformed (lines_of f) then
          Run (files r) (printed r ++ [SkippingTransformed file_path])
              (files_processed_count r) (S (files_skipped_count r))
        else
          match f with
          | Broken _ =>
              Run (files r) (printed r ++ [Processing file_path; ErrorReading file_path])
                  (files_processed_count r) (files_skipped_count r)
          | Text content w =>
              let original_content := read_text content in
              let transformed_content := transform_content isdecimal original_content in
              match w with
              | Succeeds =>
                  Run (update (files r) file_path (Text transformed_content Succeeds))
                      (printed r ++ [Processing file_path])
                      (S (files_processed_count r)) (files_skipped_count r)
              | Raises after =>
                  Run (update (files r) file_path after)
                      (printed r ++ [Processing file_path; ErrorWriting file_path])
                      (files_processed_count r) (files_skipped_count r)
              end
          end
    end.

(** The script, from [sys.argv] and the files it finds. *)
Definition main (argv : list str) (fs : file_system) : ending :=
  if length argv <? 2 then Exited 1 [Usage]
  else
    let r := fold_left main_step (tl argv) (Run fs [] 0 0) in
    Finished (Run (files r)
                  (printed r ++ [Summary (files_processed_count r) (files_skipped_count r)])
                  (files_processed_count r) (files_skipped_count r)).

End Main.

(** Arguments and files for the examples: a report, a file that is already
    transformed, a text file, and a path that does not exist. *)
Definition example_argv : list str :=
  [py "transform_markdown.py"; py "a.md"; py "notes.txt"; py "done.md";
   py "a.md"; py "missing.md"].

Definition example_files : file_system :=
  fun q =>
    if str_eqb q (py "a.md") then Some (Text scenario_input Succeeds)
    else if str_eqb q (py "done.md") then
      Some (Text (py "## File Path: `b.md`" ++ LF :: py "text") Succeeds)
    else if str_eqb q (py "notes.txt") then Some (Text (py "File Path: c.md") Succeeds)
    else None.

(** ** More predicates *)

(** The file is missing, cannot be read, or is already transformed. *)
Definition settled (o : option file) : Prop :=
  match o with
  | None => True
  | Some (Broken _) => True
  | Some f => check_if_transformed (lines_of f) = true
  end.


(** The number of lines that are not blank. *)
Definition count_nonblank (ls : list str) : nat :=
  length (filter (fun l => negb (is_blank l)) ls).

(** The first line of the document that is not blank is a File Path line,
    or the File Path heading of a transformed document. *)
Definition starts_with_file_path (content : str) : bool :=
  match dropWhile is_blank (splitlines content) with
  | [] => false
  | l :: _ => startswith (py "File Path: ") (strip l)
              || startswith (py "## File Path: `") (strip l)
  end.

(** * Properties *)

(** ** Characters and white space *)

Lemma linebreak_isspace c : is_linebreak c = true -> isspace c = true.
Proof.
  unfold is_linebreak, isspace.
  rewrite !orb_true_iff, !andb_true_iff, !N.leb_le, !N.eqb_eq. lia.
Qed.

Lemma dot_of_not_linebreak c : is_linebreak c = false -> dot c = true.
Proof.
  unfold dot, LF. destruct (N.eqb_spec c 10); [subst; discriminate | reflexivity].
Qed.

Lemma nonspace_not_LF c : isspace c = false -> (c =? LF)%N = false.
Proof.
  destruct (N.eqb_spec c LF); [subst; discriminate | reflexivity].
Qed.

Section Runs.

Context {A : Type} (p : A -> bool).
Implicit Types (s a b r : list A) (c : A).

Lemma takeWhile_dropWhile s : takeWhile p s ++ dropWhile p s = s.
Proof.
  induction s as [|c r IH]; simpl; [reflexivity|].
  destruct (p c); simpl; [now rewrite IH | reflexivity].
Qed.

Lemma takeWhile_all s : forallb p (takeWhile p s) = true.
Proof.
  induction s as [|c r IH]; simpl; [reflexivity|].
  destruct (p c) eqn:E; simpl; [now rewrite E | reflexivity].
Qed.

Lemma dropWhile_head s c r : dropWhile p s = c :: r -> p c = false.
Proof.
  induction s as [|d s IH]; simpl; [discriminate|].
  destruct (p d) eqn:E; [exact IH | intros [= <- _]; exact E].
Qed.

Lemma dropWhile_app_all a b : forallb p a = true -> dropWhile p (a ++ b) = dropWhile p b.
Proof.
  induction a as [|c a IH]; simpl; [reflexivity|].
  intros [Hc Ha]%andb_true_iff. now rewrite Hc, IH.
Qed.

Lemma takeWhile_app_all a b : forallb p a = true -> takeWhile p (a ++ b) = a ++ takeWhile p b.
Proof.
  induction a as [|c a IH]; simpl; [reflexivity|].
  intros [Hc Ha]%andb_true_iff. now rewrite Hc, IH.
Qed.

Lemma dropWhile_stop c r : p c = false -> dropWhile p (c :: r) = c :: r.
Proof. intros H; simpl; now rewrite H. Qed.

Lemma takeWhile_stop c r : p c = false -> takeWhile p (c :: r) = [].
Proof. intros H; simpl; now rewrite H. Qed.

Lemma dropWhile_all s : forallb p s = true -> dropWhile p s = [].
Proof.
  intros H. rewrite <- (app_nil_r s). now rewrite dropWhile_app_all.
Qed.

Lemma takeWhile_id s : forallb p s = true -> takeWhile p s = s.
Proof.
  intros H. rewrite <- (app_nil_r s) at 1.
  rewrite takeWhile_app_all by assumption. simpl. apply app_nil_r.
Qed.

Lemma dropWhile_nil_all s : dropWhile p s = [] -> forallb p s = true.
Proof.
  induction s as [|c r IH]; simpl; [reflexivity|].
  destruct (p c); [exact IH | discriminate].
Qed.

Lemma dropWhile_idem s : dropWhile p (dropWhile p s) = dropWhile p s.
Proof.
  destruct (dropWhile p s) as [|c r] eqn:E; [reflexivity|].
  apply dropWhile_stop. eapply dropWhile_head; eassumption.
Qed.

Lemma dropWhile_app_stop a b : dropWhile p a <> [] -> dropWhile p (a ++ b) = dropWhile p a ++ b.
Proof.
  induction a as [|c a IH]; simpl; [congruence|].
  destruct (p c); [exact IH | reflexivity].
Qed.

End Runs.

(** ** [strip] *)

Lemma forallb_rev {A : Type} (p : A -> bool) (s : list A) :
  forallb p (rev s) = forallb p s.
Proof.
  induction s as [|c r IH]; simpl; [reflexivity|].
  rewrite forallb_app, IH. simpl. rewrite andb_true_r. apply andb_comm.
Qed.

Lemma dropWhile_snoc_stop {A : Type} (p : A -> bool) (s : list A) (c : A) :
  p c = false -> dropWhile p (s ++ [c]) = dropWhile p s ++ [c].
Proof.
  intros H. induction s as [|d s IH]; simpl; [now rewrite H|].
  destruct (p d); [exact IH | reflexivity].
Qed.

Lemma rstrip_snoc a z : isspace z = false -> rstrip (a ++ [z]) = a ++ [z].
Proof.
  intros H. unfold rstrip. rewrite rev_app_distr. simpl. rewrite H.
  simpl. now rewrite rev_involutive.
Qed.

Lemma rstrip_cons c r : isspace c = false -> rstrip (c :: r) = c :: rstrip r.
Proof.
  intros H. unfold rstrip. simpl. rewrite dropWhile_snoc_stop by assumption.
  rewrite rev_app_distr. reflexivity.
Qed.

Lemma rstrip_app a b : rstrip b <> [] -> rstrip (a ++ b) = a ++ rstrip b.
Proof.
  unfold rstrip. intros H. rewrite rev_app_distr.
  rewrite dropWhile_app_stop.
  - rewrite rev_app_distr. now rewrite rev_involutive.
  - intros E. apply H. now rewrite E.
Qed.

Lemma rstrip_app_all a b : forallb isspace b = true -> rstrip (a ++ b) = rstrip a.
Proof.
  unfold rstrip. intros H. rewrite rev_app_distr.
  rewrite dropWhile_app_all; [reflexivity | now rewrite forallb_rev].
Qed.

Lemma rstrip_all s : forallb isspace s = true -> rstrip s = [].
Proof.
  intros H. unfold rstrip. rewrite dropWhile_all; [reflexivity | now rewrite forallb_rev].
Qed.

Lemma rstrip_nil_all s : rstrip s = [] -> forallb isspace s = true.
Proof.
  unfold rstrip. intros H. rewrite <- forallb_rev. apply dropWhile_nil_all.
  rewrite <- (rev_involutive (dropWhile isspace (rev s))). now rewrite H.
Qed.

Lemma rstrip_idem s : rstrip (rstrip s) = rstrip s.
Proof.
  unfold rstrip. now rewrite rev_involutive, dropWhile_idem.
Qed.

Lemma rstrip_last s a z : rstrip s = a ++ [z] -> isspace z = false.
Proof.
  unfold rstrip. intros H.
  apply (f_equal (@rev char)) in H. rewrite rev_involutive, rev_app_distr in H.
  simpl in H. eapply dropWhile_head; eassumption.
Qed.

Lemma lstrip_cons c r : isspace c = false -> lstrip (c :: r) = c :: r.
Proof. apply dropWhile_stop. Qed.

Lemma lstrip_app_all a b : forallb isspace a = true -> lstrip (a ++ b) = lstrip b.
Proof. apply dropWhile_app_all. Qed.

Lemma strip_nil_iff s : strip s = [] <-> forallb isspace s = true.
Proof.
  unfold strip, lstrip. split.
  - intros H. apply rstrip_nil_all in H.
    rewrite <- (takeWhile_dropWhile isspace s), forallb_app, H.
    now rewrite takeWhile_all.
  - intros H. now rewrite dropWhile_all.
Qed.

Lemma is_blank_iff s : is_blank s = true <-> forallb isspace s = true.
Proof.
  unfold is_blank. rewrite <- strip_nil_iff. destruct (strip s); simpl; split; congruence.
Qed.

Lemma strip_cons c r : isspace c = false -> strip (c :: r) = c :: rstrip r.
Proof.
  intros H. unfold strip. rewrite lstrip_cons by assumption. now apply rstrip_cons.
Qed.

Lemma strip_app_all a b : forallb isspace a = true -> strip (a ++ b) = strip b.
Proof. intros H. unfold strip. now rewrite lstrip_app_all. Qed.

Lemma strip_head s c r : strip s = c :: r -> isspace c = false.
Proof.
  unfold strip. destruct (lstrip s) as [|d t] eqn:E.
  - rewrite rstrip_all by reflexivity. discriminate.
  - pose proof (dropWhile_head _ _ _ _ E) as Hd.
    rewrite rstrip_cons by assumption. now intros [= <- _].
Qed.

Lemma strip_last s a z : strip s = a ++ [z] -> isspace z = false.
Proof. unfold strip. apply rstrip_last. Qed.

Lemma lstrip_strip s : lstrip (strip s) = strip s.
Proof.
  destruct (strip s) as [|c r] eqn:E; [reflexivity|].
  apply lstrip_cons. eapply strip_head; eassumption.
Qed.

Lemma rstrip_strip s : rstrip (strip s) = strip s.
Proof. unfold strip. apply rstrip_idem. Qed.

Lemma strip_idem s : strip (strip s) = strip s.
Proof. unfold strip at 1. now rewrite lstrip_strip, rstrip_strip. Qed.

Lemma strip_fixed_ends c a z :
  isspace c = false -> isspace z = false -> strip (c :: a ++ [z]) = c :: a ++ [z].
Proof.
  intros Hc Hz. rewrite strip_cons by assumption. now rewrite rstrip_snoc.
Qed.

Lemma strip_single c : isspace c = false -> strip [c] = [c].
Proof. intros H. now rewrite strip_cons. Qed.

Lemma trimmed_strip_id s : trimmed s -> strip s = s.
Proof.
  intros [|c H|c a z Hc Hz]; [reflexivity | now apply strip_single | now apply strip_fixed_ends].
Qed.

Lemma strip_trimmed s : trimmed (strip s).
Proof.
  destruct (strip s) as [|c r] eqn:E; [constructor|].
  pose proof (strip_head _ _ _ E) as Hc.
  destruct (@exists_last _ (c :: r)) as (a & z & Ha); [discriminate|].
  pose proof E as E'. rewrite Ha in E'. apply strip_last in E'.
  destruct a as [|c' a]; simpl in Ha.
  - injection Ha as -> ->. now constructor.
  - injection Ha as -> ->. now constructor.
Qed.

(** ** [re.sub] on runs of newlines *)

Lemma flush_newlines_small n : n <= 2 -> flush_newlines n = repeat LF n.
Proof.
  intros H. unfold flush_newlines.
  destruct (Nat.leb_spec 3 n); [lia | reflexivity].
Qed.

Lemma flush_newlines_shape n : exists m, m <= 2 /\ flush_newlines n = repeat LF m.
Proof.
  unfold flush_newlines. destruct (Nat.leb_spec 3 n).
  - exists 2. split; [lia | reflexivity].
  - exists n. split; [lia | reflexivity].
Qed.

Lemma has_triple_newline_short m t :
  m <= 2 -> has_triple_newline t = false ->
  match t with c :: _ => (c =? LF)%N = false | [] => True end ->
  has_triple_newline (repeat LF m ++ t) = false.
Proof.
  intros Hm Ht Hhd.
  destruct m as [|[|[|m]]]; [exact Ht | | | lia]; simpl repeat; simpl app.
  - destruct t as [|c t']; [reflexivity|].
    change (has_triple_newline (LF :: c :: t')) with
      (match t' with d :: _ => (LF =? LF)%N && (c =? LF)%N && (d =? LF)%N | [] => false end
       || has_triple_newline (c :: t')).
    rewrite Ht, Hhd. destruct t'; reflexivity.
  - destruct t as [|c t']; [reflexivity|].
    change (has_triple_newline (LF :: LF :: c :: t')) with
      ((LF =? LF)%N && (LF =? LF)%N && (c =? LF)%N
       || (match t' with d :: _ => (LF =? LF)%N && (c =? LF)%N && (d =? LF)%N | [] => false end
       || has_triple_newline (c :: t'))).
    rewrite Ht, Hhd. destruct t'; reflexivity.
Qed.

Lemma sub_newlines_from_shape s : forall n,
  exists m t, sub_newlines_from n s = repeat LF m ++ t /\ m <= 2 /\
    has_triple_newline t = false /\
    match t with c :: _ => (c =? LF)%N = false | [] => True end.
Proof.
  induction s as [|c r IH]; intros n; simpl.
  - destruct (flush_newlines_shape n) as (m & Hm & ->).
    exists m, []. rewrite app_nil_r. repeat split; auto.
  - destruct (N.eqb_spec c LF) as [->|Hc].
    + apply IH.
    + destruct (flush_newlines_shape n) as (m & Hm & ->).
      destruct (IH 0) as (m' & t' & E & Hm' & Ht' & Hhd').
      exists m, (c :: repeat LF m' ++ t'). rewrite E. repeat split; auto.
      * pose proof (has_triple_newline_short m' t' Hm' Ht' Hhd') as Hs.
        simpl. rewrite Hs.
        destruct (repeat LF m' ++ t') as [|x [|y l]]; try reflexivity.
        apply N.eqb_neq in Hc. now rewrite Hc.
      * now apply N.eqb_neq.
Qed.

Lemma sub_newlines_no_triple s : has_triple_newline (sub_newlines s) = false.
Proof.
  unfold sub_newlines.
  destruct (sub_newlines_from_shape s 0) as (m & t & -> & Hm & Ht & Hhd).
  now apply has_triple_newline_short.
Qed.

Lemma has_triple_newline_app a b :
  has_triple_newline (a ++ LF :: LF :: LF :: b) = true.
Proof.
  induction a as [|c a IH]; [reflexivity|].
  simpl app. simpl has_triple_newline. rewrite IH. apply orb_true_r.
Qed.

Lemma sub_newlines_from_snoc r z : (z =? LF)%N = false ->
  forall n, exists y, sub_newlines_from n (r ++ [z]) = y ++ [z].
Proof.
  intros Hz. induction r as [|c r IH]; intros n; simpl.
  - rewrite Hz. exists (flush_newlines n).
    unfold flush_newlines at 2. simpl. reflexivity.
  - destruct (c =? LF)%N.
    + apply IH.
    + destruct (IH 0) as (y & ->). exists (flush_newlines n ++ c :: y).
      now rewrite <- app_assoc.
Qed.

Lemma sub_newlines_from_cons c r n : (c =? LF)%N = false ->
  sub_newlines_from n (c :: r) = flush_newlines n ++ c :: sub_newlines_from 0 r.
Proof. intros H. simpl. now rewrite H. Qed.

Lemma sub_newlines_trimmed s : trimmed s -> trimmed (sub_newlines s).
Proof.
  intros [|c H|c a z Hc Hz]; unfold sub_newlines.
  - constructor.
  - rewrite sub_newlines_from_cons by now apply nonspace_not_LF.
    now constructor.
  - rewrite sub_newlines_from_cons by now apply nonspace_not_LF.
    destruct (sub_newlines_from_snoc a z (nonspace_not_LF _ Hz) 0) as (y & ->).
    now constructor.
Qed.

(** ** Literals and the shape of a line *)

Ltac eval_py :=
  repeat match goal with
    | |- context [py ?s] =>
        let v := eval vm_compute in (py s) in change (py s) with v
    end.

Ltac eval_py_in H :=
  repeat match type of H with
    | context [py ?s] =>
        let v := eval vm_compute in (py s) in change (py s) with v in H
    end.

Lemma str_eqb_eq a : forall b, str_eqb a b = true <-> a = b.
Proof.
  induction a as [|x a IH]; intros [|y b]; simpl; split; try congruence.
  - intros [Hx Hab]%andb_true_iff. apply N.eqb_eq in Hx. apply IH in Hab. congruence.
  - intros [= -> ->]. rewrite N.eqb_refl. now apply IH.
Qed.

Lemma startswith_iff p : forall s, startswith p s = true <-> exists r, s = p ++ r.
Proof.
  induction p as [|x p IH]; intros s; simpl.
  - split; [intros _; now exists s | reflexivity].
  - destruct s as [|y s].
    + split; [discriminate | intros (r & [=])].
    + rewrite andb_true_iff, N.eqb_eq, IH. split.
      * intros (-> & r & ->). now exists r.
      * intros (r & [= -> ->]). split; [reflexivity | now exists r].
Qed.

Lemma strip_indented ws m x :
  forallb isspace ws = true -> isspace m = false ->
  strip (ws ++ m :: x) = m :: rstrip x.
Proof.
  intros Hws Hm. rewrite strip_app_all by assumption. now apply strip_cons.
Qed.

Lemma strip_lstrip s : strip (lstrip s) = strip s.
Proof. unfold strip, lstrip. now rewrite dropWhile_idem. Qed.

Lemma marker_nonspace m : m = star \/ m = dash -> isspace m = false.
Proof. intros [->| ->]; reflexivity. Qed.

Lemma sub_item_match_shape ws m sp rest :
  forallb isspace ws = true -> m = star \/ m = dash ->
  sp <> [] -> forallb isspace sp = true -> forallb dot rest = true ->
  sub_item_match (ws ++ m :: sp ++ rest) = Some (ws, m, lstrip rest).
Proof.
  intros Hws Hm Hsp Hsp' Hrest. unfold sub_item_match.
  pose proof (marker_nonspace m Hm) as Hm'.
  rewrite dropWhile_app_all, dropWhile_stop by assumption. cbv beta iota.
  rewrite (takeWhile_app_all isspace ws), takeWhile_stop, app_nil_r by assumption.
  rewrite (takeWhile_app_all isspace sp), (dropWhile_app_all isspace sp) by assumption.
  assert (E : ((m =? star) || (m =? dash))%N = true) by (destruct Hm as [->| ->]; reflexivity).
  rewrite E. destruct sp as [|c sp]; [congruence|]. simpl.
  f_equal. f_equal. unfold lstrip. apply takeWhile_id.
  rewrite <- (takeWhile_dropWhile isspace rest), forallb_app in Hrest.
  apply andb_true_iff in Hrest. tauto.
Qed.

(** ** Lines *)

Lemma str_len_ind (P : str -> Prop) :
  (forall s, (forall t, length t < length s -> P t) -> P s) -> forall s, P s.
Proof.
  intros H s. remember (length s) as n eqn:E.
  revert s E. induction n as [n IH] using lt_wf_ind.
  intros s ->. apply H. intros t Ht. now apply (IH (length t)).
Qed.

Lemma splitlines_chars (p : char -> bool) s :
  forallb p s = true -> Forall (fun l => forallb p l = true) (splitlines s).
Proof.
  induction s as [s IH] using str_len_ind. destruct s as [|c r]; simpl.
  - constructor.
  - intros [Hc Hr]%andb_true_iff. destruct (is_linebreak c).
    + destruct r as [|d r']; [repeat constructor|].
      simpl in Hr. apply andb_true_iff in Hr as [Hd Hr'].
      destruct ((c =? CR)%N && (d =? LF)%N); constructor; try reflexivity.
      * apply IH; [simpl; lia | assumption].
      * apply IH; [simpl; lia | simpl; now rewrite Hd].
    + assert (Hs : Forall (fun l => forallb p l = true) (splitlines r))
        by (apply IH; [simpl; lia | assumption]).
      destruct (splitlines r) as [|l ls].
      * repeat constructor. simpl. now rewrite Hc.
      * inversion Hs; subst. constructor; [simpl; now rewrite Hc | assumption].
Qed.

Lemma splitlines_no_linebreak s :
  Forall (fun l => forallb (fun c => negb (is_linebreak c)) l = true) (splitlines s).
Proof.
  induction s as [s IH] using str_len_ind. destruct s as [|c r]; simpl.
  - constructor.
  - destruct (is_linebreak c) eqn:Ec.
    + destruct r as [|d r']; [repeat constructor|].
      destruct ((c =? CR)%N && (d =? LF)%N); constructor; try reflexivity;
        apply IH; simpl; lia.
    + assert (Hs := IH r (Nat.lt_succ_diag_r _)).
      destruct (splitlines r) as [|l ls].
      * repeat constructor. simpl. now rewrite Ec.
      * inversion Hs; subst. constructor; [simpl; now rewrite Ec | assumption].
Qed.

(** ** Blank lines in the two loops *)

Lemma pass1_step_blank st line :
  is_blank line = true -> pass1_step st line = (st, line).
Proof.
  unfold is_blank, pass1_step. destruct (strip line); [|discriminate].
  intros _. simpl. now destruct (in_key_findings st).
Qed.

Lemma pass1_blank st lines :
  Forall (fun l => is_blank l = true) lines -> pass1 st lines = (st, lines).
Proof.
  induction 1 as [|l ls Hl _ IH]; simpl; [reflexivity|].
  now rewrite pass1_step_blank, IH.
Qed.

Lemma match_2d_blank line : is_blank line = true -> match_2d line = None.
Proof.
  intros H%is_blank_iff. unfold match_2d. rewrite dropWhile_all by assumption.
  now destruct (2 <=? _).
Qed.

Lemma sub_item_match_blank line : is_blank line = true -> sub_item_match line = None.
Proof.
  intros H%is_blank_iff. unfold sub_item_match. now rewrite dropWhile_all.
Qed.

Lemma pass2_step_blank isdecimal st line :
  is_blank line = true -> pass2_step isdecimal st line = pass2_default st [].
Proof.
  intros H. unfold pass2_step, pass2_after_h3, pass2_actionable.
  rewrite match_2d_blank, sub_item_match_blank by assumption.
  unfold is_blank in H. destruct (strip line); [|discriminate]. simpl.
  destruct (in_key_findings (section st) && current_h3_active st);
    now destruct (in_actionable_recommendations (section st)).
Qed.

Lemma pass2_blank_lines isdecimal fl h3 lines :
  Forall (fun l => is_blank l = true) lines ->
  processed_lines (pass2 isdecimal (State2 fl h3 [[]]) lines) = [[]].
Proof.
  unfold pass2. induction 1 as [|l ls Hl _ IH]; simpl; [reflexivity|].
  rewrite pass2_step_blank by assumption. exact IH.
Qed.

Lemma processed_of_blank isdecimal content :
  forallb isspace content = true ->
  processed_of isdecimal content = [] \/ processed_of isdecimal content = [[]].
Proof.
  intros H. unfold processed_of.
  assert (Hl : Forall (fun l => is_blank l = true) (splitlines content)).
  { eapply Forall_impl; [|apply splitlines_chars; exact H].
    intros l Hl. now apply is_blank_iff. }
  rewrite pass1_blank by assumption.
  destruct Hl as [|l ls Hl Hls]; [now left | right].
  unfold pass2. simpl. rewrite pass2_step_blank by assumption.
  now apply pass2_blank_lines.
Qed.

(** ** The detector *)

Lemma check_skip_blanks blanks f :
  Forall (fun b => is_blank b = true) blanks ->
  check_if_transformed (fold_right Line f blanks) = check_if_transformed f.
Proof.
  induction 1 as [|b bs Hb _ IH]; simpl; [reflexivity|].
  unfold is_blank in Hb. now rewrite Hb.
Qed.

Lemma check_first_nonblank f :
  check_if_transformed f = true ->
  exists blanks l rest,
    f = fold_right Line (Line l rest) blanks /\
    Forall (fun b => is_blank b = true) blanks /\
    is_blank l = false /\ startswith (py "## File Path: `") (strip l) = true.
Proof.
  induction f as [| |l rest IH]; simpl; try discriminate.
  destruct (is_empty (strip l)) eqn:E.
  - intros H. destruct (IH H) as (bs & l' & rest' & -> & Hbs & Hl' & Hs).
    exists (l :: bs), l', rest'. repeat split; auto.
  - intros H. exists [], l, rest. repeat split; auto.
Qed.

(** ** Texts as lists of lines *)

Lemma join_lines_cons l ls :
  ls <> [] -> join_lines (l :: ls) = l ++ LF :: join_lines ls.
Proof. destruct ls; [congruence | reflexivity]. Qed.

Lemma join_lines_snoc ls z :
  ls <> [] -> join_lines (ls ++ [z]) = join_lines ls ++ LF :: z.
Proof.
  induction ls as [|l ls IH]; [congruence|]. intros _.
  destruct ls as [|l' ls]; [reflexivity|].
  change ((l :: l' :: ls) ++ [z]) with (l :: ((l' :: ls) ++ [z])).
  rewrite join_lines_cons by (simpl; discriminate).
  rewrite IH by discriminate.
  rewrite (join_lines_cons l) by discriminate.
  now rewrite <- app_assoc.
Qed.

Lemma not_blank_lstrip l : is_blank l = false -> lstrip l <> [].
Proof.
  intros H E. apply dropWhile_nil_all in E. apply is_blank_iff in E. congruence.
Qed.

Lemma not_blank_rstrip l : is_blank l = false -> rstrip l <> [].
Proof.
  intros H E. apply rstrip_nil_all in E. apply is_blank_iff in E. congruence.
Qed.

Lemma lstrip_join ls : lstrip (join_lines ls) = join_lines (ltrim_lines ls).
Proof.
  induction ls as [|l ls IH]; [reflexivity|].
  destruct ls as [|l' ls].
  - simpl. destruct (is_blank l) eqn:E; [|reflexivity].
    apply is_blank_iff in E. now apply dropWhile_all.
  - rewrite join_lines_cons by discriminate.
    change (ltrim_lines (l :: l' :: ls)) with
      (if is_blank l then ltrim_lines (l' :: ls) else lstrip l :: l' :: ls).
    destruct (is_blank l) eqn:E.
    + apply is_blank_iff in E. rewrite lstrip_app_all by assumption.
      rewrite <- IH. reflexivity.
    + rewrite (join_lines_cons (lstrip l)) by discriminate.
      apply dropWhile_app_stop. now apply not_blank_lstrip.
Qed.

Lemma rtrim_lines_snoc ls z :
  rtrim_lines (ls ++ [z]) = if is_blank z then rtrim_lines ls else ls ++ [rstrip z].
Proof.
  unfold rtrim_lines. rewrite rev_app_distr. simpl.
  destruct (is_blank z); [reflexivity|]. simpl. now rewrite rev_involutive.
Qed.

Lemma rstrip_join ls : rstrip (join_lines ls) = join_lines (rtrim_lines ls).
Proof.
  induction ls as [|z ls IH] using rev_ind; [reflexivity|].
  rewrite rtrim_lines_snoc. destruct ls as [|l ls].
  - simpl. destruct (is_blank z) eqn:E; [|reflexivity].
    apply is_blank_iff in E. now apply rstrip_all.
  - rewrite (join_lines_snoc _ z) by discriminate. destruct (is_blank z) eqn:E.
    + rewrite rstrip_app_all; [exact IH|].
      apply is_blank_iff in E. simpl. exact E.
    + rewrite (join_lines_snoc _ (rstrip z)) by discriminate.
      change (LF :: z) with ([LF] ++ z). rewrite !app_assoc.
      change (LF :: rstrip z) with ([LF] ++ rstrip z). rewrite !app_assoc.
      apply rstrip_app. now apply not_blank_rstrip.
Qed.

Lemma strip_join ls :
  strip (join_lines ls) = join_lines (rtrim_lines (ltrim_lines ls)).
Proof. unfold strip. now rewrite lstrip_join, rstrip_join. Qed.

Lemma splitlines_cons_line l s :
  no_linebreak l = true -> splitlines (l ++ LF :: s) = l :: splitlines s.
Proof.
  induction l as [|c l IH]; simpl.
  - intros _. destruct s; reflexivity.
  - intros [Hc Hl]%andb_true_iff. apply negb_true_iff in Hc. rewrite Hc.
    now rewrite IH.
Qed.

Lemma splitlines_one_line l :
  no_linebreak l = true -> l <> [] -> splitlines l = [l].
Proof.
  induction l as [|c l IH]; [congruence|]. simpl.
  intros [Hc Hl]%andb_true_iff _. apply negb_true_iff in Hc. rewrite Hc.
  destruct l as [|d l]; [reflexivity|]. now rewrite IH.
Qed.

Lemma splitlines_join ls :
  Forall (fun l => no_linebreak l = true) ls ->
  last ls [LF] <> [] ->
  splitlines (join_lines ls) = ls.
Proof.
  induction 1 as [|l ls Hl Hls IH]; [reflexivity|].
  destruct ls as [|l' ls].
  - simpl. intros H. now apply splitlines_one_line.
  - intros H. rewrite join_lines_cons by discriminate.
    rewrite splitlines_cons_line by assumption. f_equal. now apply IH.
Qed.

(** ** Runs of newlines in a text made of lines *)

Lemma has_triple_newline_suffix a b :
  has_triple_newline (a ++ b) = false -> has_triple_newline b = false.
Proof.
  induction a as [|c a IH]; [trivial|].
  simpl app. simpl has_triple_newline. intros H.
  apply orb_false_iff in H. now apply IH.
Qed.

Lemma has_triple_newline_dot_prefix l s :
  forallb dot l = true -> has_triple_newline (l ++ s) = has_triple_newline s.
Proof.
  induction l as [|c l IH]; [reflexivity|].
  intros [Hc Hl]%andb_true_iff. apply negb_true_iff in Hc.
  simpl app. simpl has_triple_newline. rewrite Hc, IH by assumption.
  now destruct (l ++ s) as [|? [|? ?]].
Qed.

Lemma repeat_shift (n : nat) (s : list N) :
  repeat LF n ++ LF :: s = repeat LF (S n) ++ s.
Proof.
  induction n as [|n IH]; [reflexivity|]. simpl. f_equal. exact IH.
Qed.

Lemma has_triple_newline_repeat n s :
  3 <= n -> has_triple_newline (repeat LF n ++ s) = true.
Proof.
  intros H. destruct n as [|[|[|n]]]; try lia. reflexivity.
Qed.

Lemma no_triple_run_short n s :
  has_triple_newline (repeat LF n ++ s) = false -> n <= 2.
Proof.
  intros H. destruct (Nat.leb_spec 3 n) as [Hn|Hn]; [|lia].
  rewrite has_triple_newline_repeat in H by assumption. discriminate.
Qed.

Lemma sub_newlines_from_id s : forall n,
  has_triple_newline (repeat LF n ++ s) = false ->
  sub_newlines_from n s = repeat LF n ++ s.
Proof.
  induction s as [|c r IH]; intros n H.
  - simpl. rewrite app_nil_r.
    apply flush_newlines_small. eapply no_triple_run_short; eassumption.
  - simpl. destruct (N.eqb_spec c LF) as [->|Hc].
    + rewrite repeat_shift in H |- *. now apply IH.
    + rewrite flush_newlines_small by (eapply no_triple_run_short; eassumption).
      f_equal. f_equal. apply (IH 0). simpl.
      apply has_triple_newline_suffix in H.
      simpl has_triple_newline in H. now apply orb_false_iff in H.
Qed.

Lemma sub_newlines_id s : has_triple_newline s = false -> sub_newlines s = s.
Proof. intros H. now apply (sub_newlines_from_id s 0). Qed.

Lemma no_linebreak_dot l : no_linebreak l = true -> forallb dot l = true.
Proof.
  unfold no_linebreak. rewrite !forallb_forall. intros H c Hc.
  apply dot_of_not_linebreak. apply negb_true_iff. now apply H.
Qed.

Lemma join_lines_no_triple ls :
  Forall (fun l => no_linebreak l = true) ls ->
  no_adjacent_blank ls = true ->
  has_triple_newline (join_lines ls) = false /\
  match join_lines ls with
  | a :: b :: _ => (a =? LF)%N && (b =? LF)%N = false
  | _ => True
  end.
Proof.
  induction 1 as [|l ls Hl Hls IH]; [now split|].
  apply no_linebreak_dot in Hl.
  destruct ls as [|l' ls].
  - intros _. simpl. split.
    + rewrite <- (app_nil_r l). now rewrite has_triple_newline_dot_prefix.
    + destruct l as [|a [|b l]]; auto. simpl in Hl.
      apply andb_true_iff in Hl as [Ha _]. apply negb_true_iff in Ha. now rewrite Ha.
  - intros Hadj. simpl in Hadj. apply andb_true_iff in Hadj as [Hab Hadj].
    specialize (IH Hadj) as [IH1 IH2].
    rewrite join_lines_cons by discriminate.
    assert (Hhd : l' = [] \/ exists b t, join_lines (l' :: ls) = b :: t /\ (b =? LF)%N = false).
    { inversion Hls as [|? ? Hl' _]; subst. destruct l' as [|b l']; [now left | right].
      apply no_linebreak_dot in Hl'. simpl in Hl'.
      apply andb_true_iff in Hl' as [Hb _]. apply negb_true_iff in Hb.
      destruct ls; [now exists b, l' | eexists b, _; split; [reflexivity | exact Hb]]. }
    remember (join_lines (l' :: ls)) as J eqn:EJ. split.
    + rewrite has_triple_newline_dot_prefix by assumption.
      change (has_triple_newline (LF :: J)) with
        (match J with
         | b :: c :: _ => (LF =? LF)%N && (b =? LF)%N && (c =? LF)%N
         | _ => false
         end || has_triple_newline J).
      rewrite IH1, orb_false_r. destruct J as [|a [|b J]]; auto.
    + destruct l as [|a l].
      * simpl app. destruct Hhd as [->|(b & t & -> & Hb)].
        -- now vm_compute in Hab.
        -- exact Hb.
      * simpl in Hl. apply andb_true_iff in Hl as [Ha _]. apply negb_true_iff in Ha.
        simpl app. destruct (l ++ LF :: J); auto. now rewrite Ha.
Qed.

(** ** The loops that normalise blank lines *)

Lemma drop_leading_blank_dropWhile pl : drop_leading_blank pl = dropWhile is_blank pl.
Proof.
  destruct pl as [|l0 tl]; [reflexivity|]. simpl.
  destruct (is_blank l0); [|reflexivity].
  induction tl as [|l tl IH]; [reflexivity|]. simpl.
  destruct (is_blank l); [exact IH | reflexivity].
Qed.

Lemma no_adjacent_blank_suffix a b :
  no_adjacent_blank (a ++ b) = true -> no_adjacent_blank b = true.
Proof.
  induction a as [|x a IH]; [trivial|]. simpl app. simpl no_adjacent_blank.
  intros [_ H]%andb_true_iff. now apply IH.
Qed.

Lemma no_adjacent_blank_prefix a b :
  no_adjacent_blank (a ++ b) = true -> no_adjacent_blank a = true.
Proof.
  induction a as [|x a IH]; [reflexivity|]. simpl app. simpl no_adjacent_blank.
  intros [H1 H2]%andb_true_iff. rewrite IH by assumption. rewrite andb_true_r.
  destruct a as [|y a]; [reflexivity|]. exact H1.
Qed.

Lemma dedup_blank_from pl : forall acc,
  no_adjacent_blank (acc ++ pl) = true -> fold_left dedup_step pl acc = acc ++ pl.
Proof.
  induction pl as [|l pl IH]; intros acc H; simpl.
  - now rewrite app_nil_r.
  - assert (E : dedup_step acc l = acc ++ [l]).
    { unfold dedup_step.
      destruct acc as [|z acc _] using rev_ind; [now rewrite andb_false_r|].
      rewrite last_last. rewrite <- app_assoc in H.
      apply no_adjacent_blank_suffix in H. simpl in H.
      apply andb_true_iff in H as [H _]. apply negb_true_iff in H.
      destruct (is_blank l), (is_blank z); try discriminate;
        now rewrite ?andb_false_r. }
    rewrite E, IH; rewrite <- app_assoc; [reflexivity | exact H].
Qed.

Lemma dedup_blank_id pl : no_adjacent_blank pl = true -> dedup_blank pl = pl.
Proof. intros H. now apply (dedup_blank_from pl []). Qed.

(** ** Characters of the lines the loops produce *)

Section Chars.

Variable p : char -> bool.

Lemma forallb_dropWhile (q : char -> bool) s :
  forallb p s = true -> forallb p (dropWhile q s) = true.
Proof.
  intros H. rewrite <- (takeWhile_dropWhile q s), forallb_app in H.
  now apply andb_true_iff in H.
Qed.

Lemma forallb_takeWhile (q : char -> bool) s :
  forallb p s = true -> forallb p (takeWhile q s) = true.
Proof.
  intros H. rewrite <- (takeWhile_dropWhile q s), forallb_app in H.
  now apply andb_true_iff in H.
Qed.

Lemma forallb_lstrip s : forallb p s = true -> forallb p (lstrip s) = true.
Proof. apply forallb_dropWhile. Qed.

Lemma forallb_rstrip s : forallb p s = true -> forallb p (rstrip s) = true.
Proof.
  intros H. unfold rstrip. rewrite forallb_rev. apply forallb_dropWhile.
  now rewrite forallb_rev.
Qed.

Lemma forallb_strip s : forallb p s = true -> forallb p (strip s) = true.
Proof. intros H. now apply forallb_rstrip, forallb_lstrip. Qed.

Lemma forallb_skipn n s : forallb p s = true -> forallb p (skipn n s) = true.
Proof.
  intros H. rewrite <- (firstn_skipn n s), forallb_app in H.
  now apply andb_true_iff in H.
Qed.

Lemma forallb_chomp s : forallb p s = true -> forallb p (chomp s) = true.
Proof.
  intros H. unfold chomp. destruct (rev s) as [|c r] eqn:E; [reflexivity|].
  destruct (c =? LF)%N; [|exact H].
  rewrite forallb_rev. rewrite <- forallb_rev, E in H. simpl in H.
  now apply andb_true_iff in H.
Qed.

Lemma match_2c_chars s g :
  match_2c s = Some g -> forallb p s = true -> forallb p g = true.
Proof.
  unfold match_2c. destruct s as [|c r]; [discriminate|].
  destruct (c =? star)%N; [|discriminate].
  intros H [_ Hr]%andb_true_iff.
  assert (Hbody : forallb p (rev (chomp (dropWhile isspace r))) = true)
    by (rewrite forallb_rev; now apply forallb_chomp, forallb_dropWhile).
  assert (Hws : forallb p (rev (takeWhile isspace r)) = true)
    by (rewrite forallb_rev; now apply forallb_takeWhile).
  destruct (rev (chomp (dropWhile isspace r))) as [|e g']; [discriminate|].
  destruct (e =? colon)%N; [|discriminate].
  simpl in Hbody. apply andb_true_iff in Hbody as [_ Hg'].
  rewrite <- forallb_rev in Hg'.
  destruct (rev g') as [|x g''].
  - destruct (rev (takeWhile isspace r)) as [|w [|w' ws]]; try discriminate.
    destruct (dot w); [|discriminate]. injection H as <-.
    simpl in Hws |- *. apply andb_true_iff in Hws as [-> _]. reflexivity.
  - destruct (is_empty (takeWhile isspace r)); [discriminate|].
    destruct (forallb dot (x :: g'')); [|discriminate]. now injection H as <-.
Qed.

Lemma match_2d_chars l g :
  match_2d l = Some g -> forallb p l = true -> forallb p g = true.
Proof.
  unfold match_2d. destruct (2 <=? _); [|discriminate].
  intros H Hl. pose proof (forallb_dropWhile isspace l Hl) as Hd.
  destruct (dropWhile isspace l) as [|c r]; [discriminate|].
  destruct ((c =? star)%N && _); [|discriminate]. injection H as <-.
  simpl in Hd. apply andb_true_iff in Hd as [_ Hr].
  now apply forallb_takeWhile, forallb_dropWhile.
Qed.

Lemma sub_item_match_chars l lead m g :
  sub_item_match l = Some (lead, m, g) -> forallb p l = true ->
  forallb p lead = true /\ p m = true /\ forallb p g = true.
Proof.
  unfold sub_item_match.
  intros H Hl. pose proof (forallb_dropWhile isspace l Hl) as Hd.
  destruct (dropWhile isspace l) as [|c r]; [discriminate|].
  destruct (_ && _); [|discriminate]. injection H as <- <- <-.
  simpl in Hd. apply andb_true_iff in Hd as [Hc Hr]. repeat split.
  - now apply forallb_takeWhile.
  - exact Hc.
  - now apply forallb_takeWhile, forallb_dropWhile.
Qed.

End Chars.

(** ** The first loop *)

Lemma is_raw_label_head t :
  is_raw_label t = true ->
  exists c r, t = c :: r /\ (c = 79 \/ c = 75 \/ c = 65 \/ c = 70)%N.
Proof.
  unfold is_raw_label. rewrite !orb_true_iff, !str_eqb_eq, startswith_iff.
  intros [[[-> | ->] | ->] | (r & ->)]; eval_py; eexists _, _; split; try reflexivity; tauto.
Qed.

Lemma not_raw_label_head c r :
  (c <> 79 /\ c <> 75 /\ c <> 65 /\ c <> 70)%N -> is_raw_label (c :: r) = false.
Proof.
  intros H. destruct (is_raw_label (c :: r)) eqn:E; [|reflexivity].
  apply is_raw_label_head in E as (c' & r' & [= <- <-] & Hc). lia.
Qed.

(** A line of [temp_lines] is either a heading the first loop wrote, which
    starts with a hash sign, or a line of the input that is no label. *)
Lemma pass1_step_line st l :
  (exists t, snd (pass1_step st l) = 35%N :: t /\ strip (snd (pass1_step st l)) = 35%N :: rstrip t)
  \/ (snd (pass1_step st l) = l /\ is_raw_label (strip l) = false).
Proof.
  unfold pass1_step.
  destruct (startswith (py "File Path: ") (strip l)) eqn:E1.
  { left. eval_py. eexists. split; [reflexivity | now apply strip_cons]. }
  destruct (str_eqb (strip l) (py "Overall Assessment:")) eqn:E2.
  { left. eval_py. eexists. split; reflexivity. }
  destruct (str_eqb (strip l) (py "Key Findings and Suggestions:")) eqn:E3.
  { left. eval_py. eexists. split; reflexivity. }
  destruct (str_eqb (strip l) (py "Actionable Recommendations:")) eqn:E4.
  { left. eval_py. eexists. split; reflexivity. }
  destruct (if in_key_findings st then match_2c (strip l) else None) as [g|].
  { left. eval_py. eexists. split; [reflexivity | now apply strip_cons]. }
  right. split; [reflexivity|]. unfold is_raw_label. now rewrite E1, E2, E3, E4.
Qed.

Lemma pass1_step_not_label st l :
  is_raw_label (strip (snd (pass1_step st l))) = false.
Proof.
  destruct (pass1_step_line st l) as [(t & _ & ->) | (-> & H)]; [|exact H].
  apply not_raw_label_head. lia.
Qed.

Lemma pass1_step_no_linebreak st l :
  no_linebreak l = true -> no_linebreak (snd (pass1_step st l)) = true.
Proof.
  unfold no_linebreak, pass1_step. intros H.
  pose proof (forallb_strip _ l H) as Hs.
  destruct (startswith _ _).
  { cbn [snd]. rewrite !forallb_app. rewrite forallb_strip by now apply forallb_skipn.
    reflexivity. }
  repeat (destruct (str_eqb _ _); [reflexivity|]).
  destruct (if in_key_findings st then match_2c (strip l) else None) as [g|] eqn:E.
  - cbn [snd]. rewrite forallb_app. destruct (in_key_findings st); [|discriminate].
    rewrite forallb_strip by (eapply match_2c_chars; eassumption). reflexivity.
  - exact H.
Qed.

Lemma pass1_lines st lines :
  snd (pass1 st lines) =
  match lines with
  | [] => []
  | l :: r => snd (pass1_step st l) :: snd (pass1 (fst (pass1_step st l)) r)
  end.
Proof.
  destruct lines as [|l r]; [reflexivity|]. simpl.
  destruct (pass1_step st l) as [st1 out]. simpl.
  now destruct (pass1 st1 r).
Qed.

Lemma pass1_temp_lines lines : forall st,
  Forall (fun l => no_linebreak l = true) lines ->
  Forall (fun l => no_linebreak l = true /\ is_raw_label (strip l) = false)
         (snd (pass1 st lines)).
Proof.
  induction lines as [|l r IH]; intros st H; rewrite pass1_lines; [constructor|].
  inversion H; subst. constructor.
  - split; [now apply pass1_step_no_linebreak | apply pass1_step_not_label].
  - now apply IH.
Qed.

Lemma pass1_step_passthrough st l :
  in_key_findings st = false -> is_raw_label (strip l) = false ->
  pass1_step st l = (st, l).
Proof.
  unfold is_raw_label, pass1_step. rewrite !orb_false_iff.
  intros -> [[[-> ->] ->] ->]. reflexivity.
Qed.

Lemma pass1_passthrough st lines :
  in_key_findings st = false ->
  Forall (fun l => is_raw_label (strip l) = false) lines ->
  pass1 st lines = (st, lines).
Proof.
  intros Hst. induction 1 as [|l r Hl _ IH]; simpl; [reflexivity|].
  now rewrite pass1_step_passthrough, IH.
Qed.

(** ** The second loop, rule by rule *)

Section Pass2.

Variable isdecimal : char -> bool.

Lemma h2_literals t :
  startswith (py "## ") t = false ->
  str_eqb t (py "## Key Findings and Suggestions") = false /\
  str_eqb t (py "## Actionable Recommendations") = false.
Proof.
  intros H. split.
  - destruct (str_eqb _ _) eqn:E; [|reflexivity].
    apply str_eqb_eq in E. subst. discriminate.
  - destruct (str_eqb _ _) eqn:E; [|reflexivity].
    apply str_eqb_eq in E. subst. discriminate.
Qed.

Lemma pass2_step_h2 st l :
  startswith (py "## ") (strip l) = true ->
  pass2_step isdecimal st l = emit (h2_flags (strip l)) false st (strip l).
Proof.
  intros H. unfold pass2_step, h2_flags.
  destruct (str_eqb _ _); [reflexivity|].
  destruct (str_eqb _ _); [reflexivity|]. now rewrite H.
Qed.

Lemma pass2_step_h3 st l :
  startswith (py "## ") (strip l) = false ->
  startswith (py "### ") (strip l) = true ->
  pass2_step isdecimal st l = emit (section st) true st (strip l).
Proof.
  intros H2 H3. unfold pass2_step.
  destruct (h2_literals _ H2) as [-> ->]. now rewrite H2, H3.
Qed.

Lemma pass2_step_body st l :
  startswith (py "## ") (strip l) = false ->
  startswith (py "### ") (strip l) = false ->
  pass2_step isdecimal st l =
  match (if in_key_findings (section st) && current_h3_active st
         then match_2d l else None) with
  | Some g => emit (section st) (current_h3_active st) st (py "- " ++ strip g)
  | None => pass2_after_h3 isdecimal st l
  end.
Proof.
  intros H2 H3. unfold pass2_step.
  destruct (h2_literals _ H2) as [-> ->]. now rewrite H2, H3.
Qed.

Lemma sub_item_match_inv l lead m g :
  sub_item_match l = Some (lead, m, g) ->
  lead = takeWhile isspace l /\ (m = star \/ m = dash) /\
  exists r, l = lead ++ m :: r /\ takeWhile isspace r <> [] /\
            g = takeWhile dot (dropWhile isspace r).
Proof.
  unfold sub_item_match. intros H.
  pose proof (takeWhile_dropWhile isspace l) as E.
  destruct (dropWhile isspace l) as [|c r]; [discriminate|].
  destruct ((c =? star)%N || (c =? dash)%N) eqn:Em; [|discriminate].
  destruct (takeWhile isspace r) eqn:Er; [discriminate|].
  simpl in H. injection H as <- <- <-. repeat split.
  - apply orb_true_iff in Em. now rewrite !N.eqb_eq in Em.
  - exists r. rewrite Er. repeat split; [now symmetry | discriminate].
Qed.

Lemma match_2d_inv l g :
  match_2d l = Some g ->
  exists r, l = takeWhile isspace l ++ star :: r /\ 2 <= length (takeWhile isspace l) /\
            takeWhile isspace r <> [] /\ g = takeWhile dot (dropWhile isspace r).
Proof.
  unfold match_2d. intros H.
  destruct (Nat.leb_spec 2 (length (takeWhile isspace l))); [|discriminate].
  pose proof (takeWhile_dropWhile isspace l) as E.
  destruct (dropWhile isspace l) as [|c r]; [discriminate|].
  destruct (N.eqb_spec c star) as [->|]; [|discriminate].
  destruct (takeWhile isspace r) eqn:Er; [discriminate|].
  simpl in H. injection H as <-. exists r. rewrite Er.
  repeat split; [now symmetry | assumption | discriminate].
Qed.

(** What an iteration can append for the line it reads: the trimmed line,
    a list item of Key Findings, or a list item of Actionable
    Recommendations. *)
Lemma pass2_step_emits st l :
  (pass2_step isdecimal st l = st /\ is_blank l = true /\
   processed_lines st <> [] /\ is_blank (last (processed_lines st) []) = true)
  \/ exists fl h3 e,
       pass2_step isdecimal st l = emit fl h3 st e /\
       (e = [] -> processed_lines st = [] \/ is_blank (last (processed_lines st) []) = false) /\
       (e = strip l
        \/ (exists g, match_2d l = Some g /\ e = py "- " ++ strip g)
        \/ (exists lead m g, sub_item_match l = Some (lead, m, g) /\
              e = (if 8 <=? length lead then lead else py "    ")
                    ++ m :: space :: strip g)).
Proof.
  assert (Hdefault :
    (pass2_default st (strip l) = st /\ is_blank l = true /\
     processed_lines st <> [] /\ is_blank (last (processed_lines st) []) = true)
    \/ exists fl h3 e,
         pass2_default st (strip l) = emit fl h3 st e /\
         (e = [] -> processed_lines st = [] \/ is_blank (last (processed_lines st) []) = false) /\
         e = strip l).
  { unfold pass2_default. destruct (strip l) as [|c t] eqn:E.
    - simpl negb. cbv iota.
      destruct (processed_lines st) as [|x acc] eqn:Ea.
      + right. exists (section st), (current_h3_active st), []. simpl. auto.
      + destruct (is_blank (last (x :: acc) [])) eqn:Eb.
        * left. unfold is_blank. rewrite E. repeat split; auto. discriminate.
        * right. exists (section st), (current_h3_active st), []. simpl. auto.
    - right. exists (section st), (current_h3_active st), (c :: t). simpl.
      repeat split; auto. discriminate. }
  assert (Hwrap : forall s',
    ((s' = st /\ is_blank l = true /\
      processed_lines st <> [] /\ is_blank (last (processed_lines st) []) = true)
     \/ exists fl h3 e, s' = emit fl h3 st e /\
         (e = [] -> processed_lines st = [] \/ is_blank (last (processed_lines st) []) = false) /\
         e = strip l) ->
    (s' = st /\ is_blank l = true /\
      processed_lines st <> [] /\ is_blank (last (processed_lines st) []) = true)
     \/ exists fl h3 e, s' = emit fl h3 st e /\
         (e = [] -> processed_lines st = [] \/ is_blank (last (processed_lines st) []) = false) /\
         (e = strip l
        \/ (exists g, match_2d l = Some g /\ e = py "- " ++ strip g)
        \/ (exists lead m g, sub_item_match l = Some (lead, m, g) /\
              e = (if 8 <=? length lead then lead else py "    ")
                    ++ m :: space :: strip g))).
  { intros s' [H|(fl & h3 & e & H1 & H2 & H3)]; [now left | right].
    exists fl, h3, e. auto. }
  destruct (startswith (py "## ") (strip l)) eqn:E2.
  { right. rewrite pass2_step_h2 by assumption.
    eexists _, _, _. split; [reflexivity|]. split; [|now left].
    intros E. rewrite E in E2. discriminate. }
  destruct (startswith (py "### ") (strip l)) eqn:E3.
  { right. rewrite pass2_step_h3 by assumption.
    eexists _, _, _. split; [reflexivity|]. split; [|now left].
    intros E. rewrite E in E3. discriminate. }
  rewrite pass2_step_body by assumption.
  destruct (if in_key_findings (section st) && current_h3_active st
            then match_2d l else None) as [g|] eqn:Eg.
  { right. eexists _, _, _. split; [reflexivity|]. split; [discriminate|].
    right. left. exists g. split; [|reflexivity].
    destruct (_ && _); [assumption | discriminate]. }
  unfold pass2_after_h3.
  destruct (in_actionable_recommendations (section st)); [|now apply Hwrap].
  unfold pass2_actionable.
  destruct (match_numbered isdecimal (strip l)) eqn:En.
  { right. eexists _, _, _. split; [reflexivity|]. split; [|now left].
    intros E. rewrite E in En. discriminate. }
  destruct (sub_item_match l) as [[[lead m] g]|] eqn:Es; [|now apply Hwrap].
  destruct (1 <=? length lead); [|now apply Hwrap].
  right. destruct (8 <=? length lead) eqn:E8.
  - eexists _, _, _. split; [reflexivity|]. split.
    + intros E. now destruct lead.
    + right. right. exists lead, m, g. rewrite E8. auto.
  - eexists _, _, _. split; [reflexivity|]. split; [discriminate|].
    right. right. exists lead, m, g. rewrite E8. auto.
Qed.

End Pass2.

(** ** What the second loop leaves in [processed_lines] *)

Lemma is_blank_strip l : is_blank (strip l) = is_blank l.
Proof. unfold is_blank. now rewrite strip_idem. Qed.

Lemma is_blank_lstrip l : is_blank (lstrip l) = is_blank l.
Proof. unfold is_blank. now rewrite strip_lstrip. Qed.

Lemma strip_rstrip l : strip (rstrip l) = strip l.
Proof.
  destruct (is_blank l) eqn:E.
  - apply is_blank_iff in E. rewrite rstrip_all by assumption.
    symmetry. now apply strip_nil_iff.
  - unfold strip. destruct (lstrip l) as [|c r] eqn:El.
    + exfalso. now apply (not_blank_lstrip l).
    + pose proof (takeWhile_dropWhile isspace l) as Ed.
      fold (lstrip l) in Ed. rewrite El in Ed. rewrite <- Ed at 1.
      assert (Hne : rstrip (c :: r) <> []).
      { rewrite rstrip_cons by (eapply dropWhile_head; exact El). discriminate. }
      rewrite rstrip_app by assumption.
      unfold lstrip. rewrite dropWhile_app_all by apply takeWhile_all.
      fold (lstrip (rstrip (c :: r))).
      rewrite rstrip_cons by (eapply dropWhile_head; exact El).
      rewrite lstrip_cons by (eapply dropWhile_head; exact El).
      rewrite <- rstrip_cons by (eapply dropWhile_head; exact El).
      apply rstrip_idem.
Qed.

Lemma is_blank_rstrip l : is_blank (rstrip l) = is_blank l.
Proof. unfold is_blank. now rewrite strip_rstrip. Qed.

Lemma no_linebreak_app a b :
  no_linebreak (a ++ b) = no_linebreak a && no_linebreak b.
Proof. apply forallb_app. Qed.

Lemma entry_ok_strip l :
  no_linebreak l = true -> is_raw_label (strip l) = false -> entry_ok (strip l).
Proof.
  intros H1 H2. repeat split.
  - now apply forallb_strip.
  - now rewrite strip_idem.
  - unfold is_blank. rewrite strip_idem. now destruct (strip l).
Qed.

Lemma entry_ok_marked lead m t :
  forallb isspace lead = true -> isspace m = false ->
  (m <> 79 /\ m <> 75 /\ m <> 65 /\ m <> 70)%N ->
  no_linebreak (lead ++ m :: t) = true -> entry_ok (lead ++ m :: t).
Proof.
  intros Hl Hm Hm' Hn. repeat split; [exact Hn | |].
  - rewrite strip_indented by assumption. now apply not_raw_label_head.
  - unfold is_blank. rewrite strip_indented by assumption. discriminate.
Qed.

Lemma star_dash_not_initial m :
  m = star \/ m = dash -> (m <> 79 /\ m <> 75 /\ m <> 65 /\ m <> 70)%N.
Proof. intros [->| ->]; unfold star, dash; lia. Qed.

Lemma pass2_step_entries isdecimal st l :
  no_linebreak l = true -> is_raw_label (strip l) = false ->
  Forall entry_ok (processed_lines st) ->
  no_adjacent_blank (processed_lines st) = true ->
  Forall entry_ok (processed_lines (pass2_step isdecimal st l)) /\
  no_adjacent_blank (processed_lines (pass2_step isdecimal st l)) = true.
Proof.
  intros Hn Hr Hacc Hadj.
  destruct (pass2_step_emits isdecimal st l) as [(-> & _)|(fl & h3 & e & -> & Hnil & He)];
    [now split|].
  assert (Hok : entry_ok e).
  { destruct He as [->|[(g & Hg & ->)|(lead & m & g & Hs & ->)]].
    - now apply entry_ok_strip.
    - apply (entry_ok_marked [] dash); try reflexivity; [unfold dash; lia|].
      unfold no_linebreak. simpl. apply forallb_strip.
      eapply match_2d_chars; eassumption.
    - destruct (sub_item_match_inv _ _ _ _ Hs) as (El & Hm & _).
      destruct (sub_item_match_chars _ _ _ _ _ Hs Hn) as (Hc1 & Hc2 & Hc3).
      apply entry_ok_marked.
      + destruct (8 <=? length lead); [|reflexivity].
        rewrite El. apply takeWhile_all.
      + now apply marker_nonspace.
      + now apply star_dash_not_initial.
      + rewrite no_linebreak_app. apply andb_true_iff. split.
        * now destruct (8 <=? length lead).
        * unfold no_linebreak. simpl. rewrite Hc2. simpl. now apply forallb_strip. }
  simpl. split.
  - apply Forall_app. split; [assumption | constructor; [exact Hok | constructor]].
  - clear He. destruct (processed_lines st) as [|z acc _] using rev_ind; [reflexivity|].
    rewrite last_last in Hnil.
    assert (Hze : (is_blank z && is_blank e) = false).
    { destruct (is_blank e) eqn:Ee; [|apply andb_false_r].
      destruct Hok as (_ & _ & Hb). specialize (Hb Ee).
      destruct (Hnil Hb) as [H| ->]; [now destruct acc | reflexivity]. }
    clear Hnil Hacc. induction acc as [|a acc IH].
    + simpl. now rewrite Hze.
    + simpl app in *. simpl no_adjacent_blank in *.
      apply andb_true_iff in Hadj as [H1 H2]. rewrite IH by assumption.
      rewrite andb_true_r. destruct acc; exact H1.
Qed.

Lemma pass2_entries isdecimal temp_lines : forall st,
  Forall (fun l => no_linebreak l = true /\ is_raw_label (strip l) = false) temp_lines ->
  Forall entry_ok (processed_lines st) ->
  no_adjacent_blank (processed_lines st) = true ->
  Forall entry_ok (processed_lines (pass2 isdecimal st temp_lines)) /\
  no_adjacent_blank (processed_lines (pass2 isdecimal st temp_lines)) = true.
Proof.
  unfold pass2. induction temp_lines as [|l r IH]; intros st H Hacc Hadj; [now split|].
  inversion H as [|? ? [Hn Hr] Hrest]; subst. simpl.
  destruct (pass2_step_entries isdecimal st l Hn Hr Hacc Hadj) as [H1 H2].
  now apply IH.
Qed.

Lemma processed_of_entries isdecimal content :
  Forall entry_ok (processed_of isdecimal content) /\
  no_adjacent_blank (processed_of isdecimal content) = true.
Proof.
  unfold processed_of.
  pose proof (pass1_temp_lines (splitlines content) no_section
                (splitlines_no_linebreak content)) as H.
  destruct (pass1 no_section (splitlines content)) as [st temp_lines].
  apply pass2_entries; [exact H | constructor | reflexivity].
Qed.

(** ** The lines of the text that is returned *)

Lemma ltrim_lines_spec ls :
  ltrim_lines ls = [] \/
  exists bl f r, ls = bl ++ f :: r /\ is_blank f = false /\ ltrim_lines ls = lstrip f :: r.
Proof.
  induction ls as [|l ls IH]; [now left|]. simpl.
  destruct (is_blank l) eqn:E.
  - destruct IH as [IH|(bl & f & r & -> & Hf & IH)]; [now left | right].
    exists (l :: bl), f, r. auto.
  - right. exists [], l, ls. auto.
Qed.

Lemma rtrim_lines_spec ls :
  rtrim_lines ls = [] \/
  exists a z bl, ls = a ++ z :: bl /\ is_blank z = false /\ rtrim_lines ls = a ++ [rstrip z].
Proof.
  induction ls as [|z ls IH] using rev_ind; [now left|].
  rewrite rtrim_lines_snoc. destruct (is_blank z) eqn:E.
  - destruct IH as [IH|(a & z' & bl & -> & Hz & IH)]; [now left | right].
    exists a, z', (bl ++ [z]). rewrite <- app_assoc. auto.
  - right. exists ls, z, []. auto.
Qed.

Lemma no_adjacent_blank_congr l1 l2 :
  Forall2 (fun a b => is_blank a = is_blank b) l1 l2 ->
  no_adjacent_blank l1 = no_adjacent_blank l2.
Proof.
  induction 1 as [|a b l1 l2 Hab H IH]; [reflexivity|].
  simpl. rewrite IH, Hab. destruct H as [|a' b' ? ? Hab' _]; [reflexivity|].
  now rewrite Hab'.
Qed.

(** The lines that are left when a text made of lines is trimmed. *)
Lemma trim_lines_cases ls :
  rtrim_lines (ltrim_lines ls) = []
  \/ (exists pre f post, ls = pre ++ f :: post /\ is_blank f = false /\
        rtrim_lines (ltrim_lines ls) = [strip f])
  \/ (exists pre f mid z post, ls = pre ++ f :: mid ++ z :: post /\
        is_blank f = false /\ is_blank z = false /\
        rtrim_lines (ltrim_lines ls) = lstrip f :: mid ++ [rstrip z]).
Proof.
  destruct (ltrim_lines_spec ls) as [->|(bl & f & r & -> & Hf & ->)]; [now left|].
  destruct (rtrim_lines_spec (lstrip f :: r)) as [E|(a & z & bl' & E & Hz & ->)].
  - exfalso. unfold rtrim_lines in E.
    simpl rev in E. destruct (dropWhile is_blank (rev r ++ [lstrip f])) eqn:Ed.
    + apply dropWhile_nil_all in Ed. rewrite forallb_app in Ed.
      apply andb_true_iff in Ed as [_ Ed]. simpl in Ed.
      rewrite is_blank_lstrip, Hf in Ed. discriminate.
    + simpl in E. apply app_eq_nil in E as [_ E]. discriminate.
  - right. destruct a as [|x a]; simpl in E; injection E as E1 E2.
    + left. subst. exists bl, f, bl'. repeat split; auto.
    + right. subst. exists bl, f, a, z, bl'. repeat split; auto.
Qed.

Lemma trim_lines_props ls :
  Forall (fun l => no_linebreak l = true) ls ->
  no_adjacent_blank ls = true ->
  let out := rtrim_lines (ltrim_lines ls) in
  Forall (fun l => no_linebreak l = true) out /\
  no_adjacent_blank out = true /\
  last out [LF] <> [] /\
  Forall (fun l => exists e, In e ls /\ strip l = strip e) out.
Proof.
  intros Hn Hadj out. subst out.
  destruct (trim_lines_cases ls)
    as [->|[(pre & f & post & -> & Hf & ->)|(pre & f & mid & z & post & -> & Hf & Hz & ->)]].
  - repeat split; auto. discriminate.
  - apply Forall_app in Hn as [_ Hn]. inversion Hn; subst.
    repeat split.
    + repeat constructor. now apply forallb_strip.
    + simpl. intros E. apply strip_nil_iff, is_blank_iff in E. congruence.
    + repeat constructor. exists f. rewrite strip_idem. split; [|reflexivity].
      apply in_or_app. right. now left.
  - pose proof Hn as Hn'.
    apply Forall_app in Hn as [_ Hn]. inversion Hn as [|? ? Hnf Hn2]; subst.
    apply Forall_app in Hn2 as [Hnm Hn3]. inversion Hn3 as [|? ? Hnz _]; subst.
    apply no_adjacent_blank_suffix in Hadj.
    change (f :: mid ++ z :: post) with ((f :: mid) ++ z :: post) in Hadj.
    replace ((f :: mid) ++ z :: post) with ((f :: mid ++ [z]) ++ post) in Hadj
      by (simpl; now rewrite <- app_assoc).
    apply no_adjacent_blank_prefix in Hadj.
    repeat split.
    + constructor; [now apply forallb_lstrip|]. apply Forall_app. split; [assumption|].
      repeat constructor. now apply forallb_rstrip.
    + rewrite <- Hadj. apply no_adjacent_blank_congr. constructor.
      * apply is_blank_lstrip.
      * apply Forall2_app; [|repeat constructor; apply is_blank_rstrip].
        clear. induction mid; constructor; auto.
    + change (lstrip f :: mid ++ [rstrip z]) with ((lstrip f :: mid) ++ [rstrip z]).
      rewrite last_last. now apply not_blank_rstrip.
    + constructor.
      * exists f. rewrite strip_lstrip. split; [|reflexivity].
        apply in_or_app. right. now left.
      * apply Forall_app. split.
        -- apply Forall_forall. intros x Hx. exists x. split; [|reflexivity].
           apply in_or_app. right. right. apply in_or_app. now left.
        -- repeat constructor. exists z. rewrite strip_rstrip. split; [|reflexivity].
           apply in_or_app. right. right. apply in_or_app. right. now left.
Qed.

Lemma ltrim_lines_dropWhile ls : ltrim_lines (dropWhile is_blank ls) = ltrim_lines ls.
Proof.
  induction ls as [|l ls IH]; [reflexivity|]. simpl.
  destruct (is_blank l) eqn:E; [exact IH|]. simpl. now rewrite E.
Qed.

Lemma entries_no_linebreak ls :
  Forall entry_ok ls -> Forall (fun l => no_linebreak l = true) ls.
Proof. apply Forall_impl. now intros l (H & _). Qed.

(** The text that is returned is made of the lines of [output_lines], and
    they are the lines [splitlines] finds in it. *)
Lemma transform_content_lines isdecimal content :
  transform_content isdecimal content = join_lines (output_lines isdecimal content) /\
  splitlines (transform_content isdecimal content) = output_lines isdecimal content.
Proof.
  unfold transform_content, output_lines.
  destruct (processed_of_entries isdecimal content) as [Hent Hadj].
  apply entries_no_linebreak in Hent.
  set (P := processed_of isdecimal content) in *.
  rewrite drop_leading_blank_dropWhile.
  rewrite dedup_blank_id
    by (apply (no_adjacent_blank_suffix (takeWhile is_blank P));
        now rewrite takeWhile_dropWhile).
  rewrite strip_join, ltrim_lines_dropWhile.
  destruct (trim_lines_props P Hent Hadj) as (Hn & Ha & Hlast & _).
  rewrite sub_newlines_id by now apply join_lines_no_triple.
  split; [reflexivity | now apply splitlines_join].
Qed.

(** ** Feeding the second loop its own output *)

Section Stable.

Variable isdecimal : char -> bool.
Hypothesis star_no_digit : isdecimal star = false.
Hypothesis dash_no_digit : isdecimal dash = false.

Lemma h2_flags_ok t : flags_ok (h2_flags t).
Proof. unfold h2_flags, flags_ok. now repeat destruct (str_eqb _ _). Qed.

Lemma trimmed_head_nonspace t :
  strip t = t -> t <> [] -> exists c r, t = c :: r /\ isspace c = false.
Proof.
  intros E H. destruct t as [|c r]; [congruence|].
  exists c, r. split; [reflexivity|]. eapply strip_head; exact E.
Qed.

Lemma match_2d_trimmed t : strip t = t -> match_2d t = None.
Proof.
  intros E. destruct t as [|c r]; [reflexivity|].
  destruct (trimmed_head_nonspace _ E) as (c' & r' & [= <- <-] & Hc); [discriminate|].
  unfold match_2d. now rewrite takeWhile_stop.
Qed.

Lemma sub_item_match_trimmed t lead m g :
  strip t = t -> sub_item_match t = Some (lead, m, g) -> lead = [].
Proof.
  intros E H. apply sub_item_match_inv in H as (-> & _).
  destruct t as [|c r]; [reflexivity|].
  destruct (trimmed_head_nonspace _ E) as (c' & r' & [= <- <-] & Hc); [discriminate|].
  now apply takeWhile_stop.
Qed.

(** A trimmed line that is no heading and no numbered item is appended as
    it is. *)
Lemma pass2_step_trimmed st t :
  strip t = t -> t <> [] ->
  startswith (py "## ") t = false -> startswith (py "### ") t = false ->
  (in_actionable_recommendations (section st) = true ->
   match_numbered isdecimal t = false) ->
  pass2_step isdecimal st t = emit (section st) (current_h3_active st) st t.
Proof.
  intros E Hne H2 H3 Hnum.
  rewrite pass2_step_body by now rewrite E.
  rewrite match_2d_trimmed by assumption.
  replace (if in_key_findings (section st) && current_h3_active st
           then @None (list N) else None) with (@None (list N))
    by now destruct (_ && _).
  unfold pass2_after_h3, pass2_actionable. rewrite !E.
  assert (Hd : pass2_default st t = emit (section st) (current_h3_active st) st t).
  { unfold pass2_default. destruct t; [congruence | reflexivity]. }
  destruct (in_actionable_recommendations (section st)); [|exact Hd].
  rewrite Hnum by reflexivity.
  destruct (sub_item_match t) as [[[lead m] g]|] eqn:Es; [|exact Hd].
  rewrite (sub_item_match_trimmed _ _ _ _ E Es). exact Hd.
Qed.

Lemma strip_marked m t :
  isspace m = false -> t <> [] -> strip t = t ->
  strip (m :: space :: t) = m :: space :: t /\ rstrip (m :: space :: t) = m :: space :: t.
Proof.
  intros Hm Hne E.
  assert (Hr : rstrip (space :: t) = space :: t).
  { change (space :: t) with ([space] ++ t).
    assert (Ht : rstrip t = t) by (rewrite <- E; apply rstrip_strip).
    rewrite rstrip_app; rewrite Ht; [reflexivity | assumption]. }
  split.
  - rewrite strip_cons by assumption. now rewrite Hr.
  - rewrite rstrip_cons by assumption. now rewrite Hr.
Qed.

(** The text of a list item is not empty, unless the line is the marker
    alone. *)
Lemma item_text_not_empty ws m r :
  forallb isspace ws = true -> isspace m = false ->
  no_linebreak (ws ++ m :: r) = true ->
  strip (ws ++ m :: r) <> [m] ->
  strip (takeWhile dot (dropWhile isspace r)) = strip r /\ strip r <> [].
Proof.
  intros Hws Hm Hn Hne.
  rewrite no_linebreak_app in Hn. apply andb_true_iff in Hn as [_ Hn].
  apply no_linebreak_dot in Hn. simpl in Hn. apply andb_true_iff in Hn as [_ Hr].
  rewrite takeWhile_id by now apply forallb_dropWhile.
  fold (lstrip r). rewrite strip_lstrip. split; [reflexivity|].
  intros E. apply Hne. rewrite strip_indented by assumption.
  apply strip_nil_iff in E. now rewrite rstrip_all.
Qed.

Lemma pass2_step_stable st l :
  flags_ok (section st) -> no_linebreak l = true ->
  strip l <> [star] -> strip l <> [dash] ->
  pass2_step isdecimal st l = st
  \/ exists fl h3 e,
       pass2_step isdecimal st l = emit fl h3 st e /\ flags_ok fl /\
       pass2_step isdecimal st e = emit fl h3 st e /\ rstrip e = e.
Proof.
  intros Hfl Hn Hstar Hdash.
  destruct (startswith (py "## ") (strip l)) eqn:E2.
  { right. exists (h2_flags (strip l)), false, (strip l).
    rewrite !pass2_step_h2, ?strip_idem by now rewrite ?strip_idem.
    repeat split; [apply h2_flags_ok | apply rstrip_strip]. }
  destruct (startswith (py "### ") (strip l)) eqn:E3.
  { right. exists (section st), true, (strip l).
    rewrite !pass2_step_h3, ?strip_idem by now rewrite ?strip_idem.
    repeat split; [assumption | apply rstrip_strip]. }
  assert (Hdef :
    (in_actionable_recommendations (section st) = true ->
     match_numbered isdecimal (strip l) = false) ->
    pass2_default st (strip l) = st
    \/ exists fl h3 e,
         pass2_default st (strip l) = emit fl h3 st e /\ flags_ok fl /\
         pass2_step isdecimal st e = emit fl h3 st e /\ rstrip e = e).
  { intros Hnum. destruct (strip l) as [|c t] eqn:Es.
    - unfold pass2_default. simpl negb. cbv iota.
      destruct (is_empty (processed_lines st)
                || negb (is_blank (last (processed_lines st) []))) eqn:Ec; [right | now left].
      exists (section st), (current_h3_active st), [].
      rewrite pass2_step_blank by reflexivity. unfold pass2_default.
      simpl negb. cbv iota. rewrite Ec. auto.
    - right. exists (section st), (current_h3_active st), (c :: t).
      assert (Et : strip (c :: t) = c :: t) by (rewrite <- Es; apply strip_idem).
      split; [reflexivity|]. split; [assumption|]. split.
      + apply pass2_step_trimmed;
          [exact Et | discriminate | exact E2 | exact E3 | exact Hnum].
      + rewrite <- Es. apply rstrip_strip. }
  rewrite pass2_step_body by assumption.
  destruct (in_key_findings (section st) && current_h3_active st) eqn:Ekh.
  - apply andb_true_iff in Ekh as [Ekf Eh3].
    assert (Ear : in_actionable_recommendations (section st) = false).
    { unfold flags_ok in Hfl. rewrite Ekf in Hfl. exact Hfl. }
    destruct (match_2d l) as [g|] eqn:Eg.
    + right. exists (section st), (current_h3_active st), (py "- " ++ strip g).
      destruct (match_2d_inv _ _ Eg) as (r & El & Hlen & Hsp & Hg).
      destruct (item_text_not_empty (takeWhile isspace l) star r) as [Hs Hne];
        try (rewrite <- El); try assumption; [apply takeWhile_all | reflexivity|].
      rewrite <- Hg in Hs.
      destruct (strip_marked dash (strip g)) as [He1 He2];
        [reflexivity | now rewrite Hs | apply strip_idem|].
      repeat split; [assumption | | exact He2].
      apply pass2_step_trimmed; [exact He1 | discriminate | reflexivity | reflexivity|].
      rewrite Ear. discriminate.
    + unfold pass2_after_h3. rewrite Ear. apply Hdef. rewrite Ear. discriminate.
  - unfold pass2_after_h3.
    destruct (in_actionable_recommendations (section st)) eqn:Ear;
      [|apply Hdef; discriminate].
    assert (Ekf : in_key_findings (section st) = false).
    { unfold flags_ok in Hfl. rewrite Ear, andb_true_r in Hfl. exact Hfl. }
    unfold pass2_actionable.
    destruct (match_numbered isdecimal (strip l)) eqn:En.
    { right. exists (section st), (current_h3_active st), (strip l).
      repeat split; [assumption | | apply rstrip_strip].
      rewrite pass2_step_body by now rewrite strip_idem.
      rewrite Ekf. simpl andb. cbv iota.
      unfold pass2_after_h3, pass2_actionable. now rewrite Ear, strip_idem, En. }
    destruct (sub_item_match l) as [[[lead m] g]|] eqn:Es; [|now apply Hdef].
    destruct (1 <=? length lead) eqn:E1; [|now apply Hdef].
    destruct (sub_item_match_inv _ _ _ _ Es) as (Elead & Hm & r & El & Hsp & Hg).
    pose proof (marker_nonspace m Hm) as Hm'.
    assert (Hlead : forallb isspace lead = true) by (rewrite Elead; apply takeWhile_all).
    destruct (item_text_not_empty lead m r) as [Hs Hne];
      try (rewrite <- El); try assumption.
    { destruct Hm as [->| ->]; assumption. }
    rewrite <- Hg in Hs.
    set (lead' := if 8 <=? length lead then lead else py "    ").
    assert (Hlead' : forallb isspace lead' = true)
      by (unfold lead'; now destruct (8 <=? length lead)).
    assert (Hlen' : (1 <=? length lead') = true /\
                    (if 8 <=? length lead' then lead' else py "    ") = lead').
    { unfold lead'. destruct (8 <=? length lead) eqn:E8; [now rewrite E1, E8 | now split]. }
    destruct (strip_marked m (strip g)) as [He1 He2];
      [assumption | now rewrite Hs | apply strip_idem|].
    assert (Hemit : forall s : state2,
      (if 8 <=? length lead
       then emit (section st) (current_h3_active st) s (lead ++ m :: space :: strip g)
       else emit (section st) (current_h3_active st) s (py "    " ++ m :: space :: strip g))
      = emit (section st) (current_h3_active st) s (lead' ++ m :: space :: strip g)).
    { intros s. unfold lead'. now destruct (8 <=? length lead). }
    rewrite Hemit.
    right. exists (section st), (current_h3_active st), (lead' ++ m :: space :: strip g).
    assert (Hse : strip (lead' ++ m :: space :: strip g) = m :: space :: strip g).
    { rewrite strip_app_all by assumption. exact He1. }
    repeat split; [assumption | |].
    + rewrite pass2_step_body
        by (rewrite Hse; destruct Hm as [->| ->]; reflexivity).
      rewrite Ekf. simpl andb. cbv iota.
      unfold pass2_after_h3, pass2_actionable. rewrite Ear, Hse.
      assert (Hnum : match_numbered isdecimal (m :: space :: strip g) = false).
      { simpl. destruct Hm as [->| ->];
          [now rewrite star_no_digit | now rewrite dash_no_digit]. }
      rewrite Hnum.
      change (lead' ++ m :: space :: strip g) with (lead' ++ m :: [space] ++ strip g).
      rewrite sub_item_match_shape; try assumption; try reflexivity; try discriminate.
      * destruct Hlen' as [-> _]. cbv zeta. rewrite lstrip_strip, strip_idem.
        unfold lead'. destruct (8 <=? length lead) eqn:E8; [now rewrite E8 | reflexivity].
      * apply no_linebreak_dot. apply forallb_strip.
        destruct (sub_item_match_chars (fun c => negb (is_linebreak c)) _ _ _ _ Es Hn)
          as (_ & _ & H). exact H.
    + rewrite rstrip_app; rewrite He2; [reflexivity | discriminate].
Qed.

End Stable.

(** ** The lines already appended matter only through the last one *)

Lemma last_app_nonempty {A : Type} (pre acc : list A) (d : A) :
  acc <> [] -> last (pre ++ acc) d = last acc d.
Proof.
  destruct acc as [|z acc _] using rev_ind; [congruence|]. intros _.
  now rewrite app_assoc, !last_last.
Qed.

Lemma pass2_step_prefix isdecimal pre fl h3 acc l :
  acc <> [] ->
  pass2_step isdecimal (State2 fl h3 (pre ++ acc)) l =
  prepend pre (pass2_step isdecimal (State2 fl h3 acc) l).
Proof.
  intros Hne.
  assert (He : is_empty (pre ++ acc) = false) by (destruct pre, acc; simpl; congruence).
  assert (He' : is_empty acc = false) by (destruct acc; simpl; congruence).
  unfold pass2_step, pass2_after_h3, pass2_actionable, pass2_default, emit, prepend.
  cbn [section current_h3_active processed_lines].
  rewrite (last_app_nonempty pre acc) by assumption. rewrite He, He'.
  repeat match goal with
    | |- context [if ?c then _ else _] => destruct c
    | |- context [match ?c with Some _ => _ | None => _ end] => destruct c as [?g|]
    | |- context [match ?c with (_, _) => _ end] => destruct c
    end;
    cbn [section current_h3_active processed_lines]; now rewrite <- ?app_assoc.
Qed.

Lemma pass2_step_grows isdecimal st l :
  processed_lines st <> [] -> processed_lines (pass2_step isdecimal st l) <> [].
Proof.
  intros H.
  destruct (pass2_step_emits isdecimal st l) as [(-> & _)|(fl & h3 & e & -> & _)];
    [assumption|].
  simpl. now destruct (processed_lines st).
Qed.

Lemma pass2_prefix isdecimal pre lines : forall fl h3 acc,
  acc <> [] ->
  pass2 isdecimal (State2 fl h3 (pre ++ acc)) lines =
  prepend pre (pass2 isdecimal (State2 fl h3 acc) lines).
Proof.
  unfold pass2. induction lines as [|l r IH]; intros fl h3 acc Hne; [reflexivity|].
  simpl. rewrite pass2_step_prefix by assumption.
  pose proof (pass2_step_grows isdecimal (State2 fl h3 acc) l Hne) as Hg.
  destruct (pass2_step isdecimal (State2 fl h3 acc) l) as [fl' h3' acc'].
  unfold prepend. cbn [section current_h3_active processed_lines] in *.
  now apply IH.
Qed.

Lemma pass2_blanks isdecimal fl h3 lines :
  Forall (fun l => is_blank l = true) lines ->
  pass2 isdecimal (State2 fl h3 []) lines =
  State2 fl h3 (if is_empty lines then [] else [[]]).
Proof.
  intros H. destruct H as [|l r Hl Hr]; [reflexivity|].
  unfold pass2. simpl. rewrite pass2_step_blank by assumption.
  unfold pass2_default, emit. simpl.
  induction Hr as [|l' r' Hl' _ IH]; [reflexivity|].
  simpl. rewrite pass2_step_blank by assumption. exact IH.
Qed.

Section Refeed.

Variable isdecimal : char -> bool.
Hypothesis star_no_digit : isdecimal star = false.
Hypothesis dash_no_digit : isdecimal dash = false.

(** The lines the second loop appends are appended again, one for one,
    when the loop reads them in place of the lines it read. *)
Lemma pass2_refeed lines : forall st,
  flags_ok (section st) ->
  Forall (fun l => no_linebreak l = true /\ strip l <> [star] /\ strip l <> [dash]) lines ->
  exists out,
    processed_lines (pass2 isdecimal st lines) = processed_lines st ++ out /\
    Forall (fun e => rstrip e = e) out /\
    forall out0 out1, out = out0 ++ out1 ->
      processed_lines (pass2 isdecimal st out0) = processed_lines st ++ out0.
Proof.
  induction lines as [|l r IH]; intros st Hfl H.
  - exists []. rewrite app_nil_r. repeat split; [constructor|].
    intros out0 out1 E. symmetry in E. apply app_eq_nil in E as [-> _].
    simpl. now rewrite app_nil_r.
  - inversion H as [|? ? (Hn & Hs & Hd) Hr]; subst.
    unfold pass2 in *. simpl fold_left.
    destruct (pass2_step_stable isdecimal star_no_digit dash_no_digit st l Hfl Hn Hs Hd)
      as [->|(fl & h3 & e & -> & Hfl' & Hre & He)]; [now apply IH|].
    destruct (IH (emit fl h3 st e) Hfl' Hr) as (out & E & Hout & Hpre).
    exists (e :: out). simpl processed_lines in E. rewrite <- app_assoc in E.
    repeat split; [exact E | now constructor|].
    intros out0 out1 E'. destruct out0 as [|e0 out0].
    + simpl. now rewrite app_nil_r.
    + injection E' as <- E'. simpl fold_left. rewrite Hre.
      rewrite (Hpre out0 out1 E'). simpl. now rewrite <- app_assoc.
Qed.

End Refeed.

Lemma transform_content_trimmed isdecimal content :
  trimmed (transform_content isdecimal content).
Proof. apply sub_newlines_trimmed, strip_trimmed. Qed.

(** ** Documents that start with a section *)

Lemma pass1_app a : forall st b,
  pass1 st (a ++ b) =
  (fst (pass1 (fst (pass1 st a)) b),
   snd (pass1 st a) ++ snd (pass1 (fst (pass1 st a)) b)).
Proof.
  induction a as [|l a IH]; intros st b; simpl.
  - now destruct (pass1 st b).
  - destruct (pass1_step st l) as [st1 out]. rewrite IH.
    destruct (pass1 st1 a) as [st2 outs]. simpl.
    now destruct (pass1 st2 b).
Qed.

Lemma pass1_cons st l r :
  pass1 st (l :: r) =
  (fst (pass1 (fst (pass1_step st l)) r),
   snd (pass1_step st l) :: snd (pass1 (fst (pass1_step st l)) r)).
Proof.
  simpl. destruct (pass1_step st l) as [st1 out]. simpl.
  now destruct (pass1 st1 r).
Qed.

Lemma strip_h2_prefix c t :
  isspace c = false ->
  strip (35 :: 35 :: 32 :: c :: t)%N = (35 :: 35 :: 32 :: c :: rstrip t)%N.
Proof.
  intros Hc. rewrite strip_cons by reflexivity. rewrite rstrip_cons by reflexivity.
  change (32 :: c :: t)%N with ([32%N] ++ c :: t).
  rewrite rstrip_app; rewrite rstrip_cons by assumption; [reflexivity | discriminate].
Qed.

(** The first loop turns a line that opens a section into a level-2
    heading, or leaves it one. *)
Lemma pass1_step_opens st h :
  opens_section (strip h) = true ->
  startswith (py "## ") (strip (snd (pass1_step st h))) = true.
Proof.
  unfold opens_section, pass1_step. intros H.
  destruct (startswith (py "File Path: ") (strip h)) eqn:E1.
  { cbn [snd]. eval_py. simpl app. now rewrite strip_h2_prefix. }
  destruct (str_eqb (strip h) (py "Overall Assessment:")) eqn:E2; [reflexivity|].
  destruct (str_eqb (strip h) (py "Key Findings and Suggestions:")) eqn:E3; [reflexivity|].
  destruct (str_eqb (strip h) (py "Actionable Recommendations:")) eqn:E4; [reflexivity|].
  unfold is_raw_label in H. rewrite E1, E2, E3, E4 in H. cbn [orb] in H.
  assert (Hm : match_2c (strip h) = None).
  { apply startswith_iff in H as (r & ->). reflexivity. }
  rewrite Hm. replace (if in_key_findings st then @None (list N) else None)
    with (@None (list N)) by now destruct (in_key_findings st).
  exact H.
Qed.

Lemma pass1_keeps_bullets lines : forall st,
  Forall (fun l => no_linebreak l = true /\ strip l <> [star] /\ strip l <> [dash]) lines ->
  Forall (fun l => no_linebreak l = true /\ strip l <> [star] /\ strip l <> [dash])
         (snd (pass1 st lines)).
Proof.
  induction lines as [|l r IH]; intros st H; rewrite pass1_lines; [constructor|].
  inversion H as [|? ? (Hn & Hs & Hd) Hr]; subst. constructor; [|now apply IH].
  split; [now apply pass1_step_no_linebreak|].
  destruct (pass1_step_line st l) as [(t & _ & ->) | (-> & _)]; [|now split].
  split; discriminate.
Qed.

Lemma no_empty_bullet_lines content :
  no_empty_bullet content = true ->
  Forall (fun l => no_linebreak l = true /\ strip l <> [star] /\ strip l <> [dash])
         (splitlines content).
Proof.
  unfold no_empty_bullet. rewrite forallb_forall. intros H.
  pose proof (splitlines_no_linebreak content) as Hn.
  rewrite Forall_forall in Hn |- *. intros l Hl. split; [now apply Hn|].
  specialize (H l Hl). apply negb_true_iff, orb_false_iff in H as [H1 H2].
  split; intros E; rewrite E in *; discriminate.
Qed.

Lemma pass2_app isdecimal st a b :
  pass2 isdecimal st (a ++ b) = pass2 isdecimal (pass2 isdecimal st a) b.
Proof. apply fold_left_app. Qed.

Lemma pass2_cons isdecimal st l r :
  pass2 isdecimal st (l :: r) = pass2 isdecimal (pass2_step isdecimal st l) r.
Proof. reflexivity. Qed.

Section Sections.

Variable isdecimal : char -> bool.
Hypothesis star_no_digit : isdecimal star = false.
Hypothesis dash_no_digit : isdecimal dash = false.

(** The lines the second loop appends for a document that starts with a
    section: at most one blank line, the heading of the section, and lines
    that the loop appends again when it starts from the heading. *)
Lemma processed_of_sections content h rest :
  no_empty_bullet content = true ->
  dropWhile is_blank (splitlines content) = h :: rest ->
  opens_section (strip h) = true ->
  exists blanks hh out,
    processed_of isdecimal content = blanks ++ hh :: out /\
    Forall (fun b => is_blank b = true) blanks /\
    strip hh = hh /\ startswith (py "## ") hh = true /\
    Forall (fun e => rstrip e = e) out /\
    forall out0 out1, out = out0 ++ out1 ->
      processed_lines (pass2 isdecimal (State2 (h2_flags hh) false [hh]) out0) = hh :: out0.
Proof.
  intros Hb Hd Ho.
  pose proof (no_empty_bullet_lines content Hb) as Hlines.
  pose proof (takeWhile_dropWhile is_blank (splitlines content)) as El.
  rewrite Hd in El.
  assert (Hbl : Forall (fun l => is_blank l = true) (takeWhile is_blank (splitlines content))).
  { apply Forall_forall. apply forallb_forall. apply takeWhile_all. }
  unfold processed_of. rewrite <- El in Hlines |- *.
  apply Forall_app in Hlines as [_ Hlines].
  inversion Hlines as [|? ? _ Hrest]; subst.
  set (blank_lines := takeWhile is_blank (splitlines content)) in *.
  rewrite pass1_app, (pass1_blank no_section blank_lines) by assumption. cbn [fst snd].
  rewrite pass1_cons. cbn [fst snd].
  set (st1 := fst (pass1_step no_section h)).
  set (h' := snd (pass1_step no_section h)).
  pose proof (pass1_step_opens no_section h Ho) as Hh'. fold h' in Hh'.
  pose proof (pass1_keeps_bullets rest st1 Hrest) as Hrest'.
  set (temp := snd (pass1 st1 rest)) in *.
  set (leak := fst (pass1 st1 rest)).
  rewrite pass2_app, pass2_blanks by assumption.
  set (blanks := if is_empty blank_lines then [] else [[]] : list (list N)).
  assert (Hblanks : Forall (fun b => is_blank b = true) blanks).
  { unfold blanks. destruct (is_empty blank_lines); repeat constructor. }
  rewrite pass2_cons, pass2_step_h2 by assumption.
  unfold emit. cbn [processed_lines].
  destruct (pass2_refeed isdecimal star_no_digit dash_no_digit temp
              (State2 (h2_flags (strip h')) false (blanks ++ [strip h'])))
    as (out & E & Hout & Hpre); [apply h2_flags_ok | exact Hrest' |].
  exists blanks, (strip h'), out. cbn [processed_lines] in E, Hpre.
  rewrite E, <- app_assoc. repeat split; auto.
  - apply strip_idem.
  - intros out0 out1 Eo. specialize (Hpre out0 out1 Eo).
    rewrite pass2_prefix in Hpre by discriminate.
    unfold prepend in Hpre. cbn [processed_lines] in Hpre.
    rewrite <- app_assoc in Hpre. now apply app_inv_head in Hpre.
Qed.

End Sections.

Lemma processed_of_blank_lines isdecimal content :
  Forall (fun l => is_blank l = true) (splitlines content) ->
  processed_of isdecimal content = [] \/ processed_of isdecimal content = [[]].
Proof.
  intros Hl. unfold processed_of. rewrite pass1_blank by assumption.
  rewrite pass2_blanks by assumption.
  destruct (is_empty (splitlines content)); auto.
Qed.

Lemma ltrim_lines_app_blank bl ls :
  Forall (fun b => is_blank b = true) bl -> ltrim_lines (bl ++ ls) = ltrim_lines ls.
Proof. induction 1 as [|b bl Hb _ IH]; simpl; [reflexivity | now rewrite Hb]. Qed.

Lemma output_lines_props isdecimal content :
  Forall (fun l => no_linebreak l = true) (output_lines isdecimal content) /\
  no_adjacent_blank (output_lines isdecimal content) = true /\
  last (output_lines isdecimal content) [LF] <> [] /\
  Forall (fun l => is_raw_label (strip l) = false) (output_lines isdecimal content) /\
  dropWhile is_blank (output_lines isdecimal content) = output_lines isdecimal content.
Proof.
  unfold output_lines.
  destruct (processed_of_entries isdecimal content) as [Hent Hadj].
  destruct (trim_lines_props _ (entries_no_linebreak _ Hent) Hadj) as (H1 & H2 & H3 & H4).
  repeat split; trivial.
  - eapply Forall_impl; [|exact H4]. cbv beta. intros l (e & He & ->).
    rewrite Forall_forall in Hent. now destruct (Hent e He) as (_ & Hr & _).
  - destruct (trim_lines_cases (processed_of isdecimal content))
      as [->|[(pre & f & post & _ & Hf & ->)|(pre & f & mid & z & post & _ & Hf & _ & ->)]];
      [reflexivity | |]; apply dropWhile_stop.
    + now rewrite is_blank_strip.
    + now rewrite is_blank_lstrip.
Qed.

Section Idempotence.

Variable isdecimal : char -> bool.
Hypothesis star_no_digit : isdecimal star = false.
Hypothesis dash_no_digit : isdecimal dash = false.

(** On a document that starts with a section and has no empty bullet, the
    second loop leaves the lines of the text that is returned as they
    are. *)
Lemma output_lines_refeed content :
  starts_with_section content = true -> no_empty_bullet content = true ->
  processed_lines (pass2 isdecimal (State2 no_section false [])
                     (output_lines isdecimal content))
  = output_lines isdecimal content.
Proof.
  unfold starts_with_section. intros Hs Hb.
  destruct (dropWhile is_blank (splitlines content)) as [|h rest] eqn:Hd.
  - assert (Hl : Forall (fun l => is_blank l = true) (splitlines content)).
    { apply Forall_forall, forallb_forall. now apply dropWhile_nil_all. }
    unfold output_lines.
    destruct (processed_of_blank_lines isdecimal content Hl) as [-> | ->]; reflexivity.
  - destruct (processed_of_sections isdecimal star_no_digit dash_no_digit content h rest Hb Hd Hs)
      as (blanks & hh & out & E & Hbl & Hhh & Hh2 & Hout & Hpre).
    unfold output_lines. rewrite E, ltrim_lines_app_blank by assumption.
    assert (Hnb : is_blank hh = false).
    { unfold is_blank. rewrite Hhh. now destruct hh. }
    simpl ltrim_lines. rewrite Hnb.
    assert (Hl : lstrip hh = hh) by (rewrite <- Hhh; apply lstrip_strip).
    rewrite Hl.
    destruct (rtrim_lines_spec (hh :: out)) as [->|(a & z & bl & Ea & Hz & ->)];
      [reflexivity|].
    assert (Hfix : Forall (fun e => rstrip e = e) (hh :: out)).
    { constructor; [rewrite <- Hhh; apply rstrip_strip | exact Hout]. }
    rewrite Ea in Hfix. apply Forall_app in Hfix as [_ Hfix].
    inversion Hfix as [|? ? Hrz _]; subst. rewrite Hrz.
    destruct a as [|x a]; simpl in Ea; injection Ea as Eh Eo.
    + subst z. cbn [app]. rewrite pass2_cons, pass2_step_h2 by now rewrite Hhh.
      rewrite Hhh. reflexivity.
    + subst x. cbn [app]. rewrite pass2_cons, pass2_step_h2 by now rewrite Hhh.
      rewrite Hhh. unfold emit. cbn [processed_lines app].
      apply (Hpre (a ++ [z]) bl). now rewrite <- app_assoc.
Qed.

End Idempotence.

(** ** The section flags are never set together *)

Lemma pass1_step_flags_ok st l : flags_ok st -> flags_ok (fst (pass1_step st l)).
Proof.
  intros H. unfold pass1_step.
  repeat match goal with
    | |- context [if ?c then _ else _] => destruct c
    | |- context [match ?c with Some _ => _ | None => _ end] => destruct c
    end; trivial; reflexivity.
Qed.

Lemma pass1_flags_ok lines : forall st, flags_ok st -> flags_ok (fst (pass1 st lines)).
Proof.
  induction lines as [|l r IH]; intros st H; [exact H|].
  rewrite pass1_cons. cbn [fst]. now apply IH, pass1_step_flags_ok.
Qed.

Lemma pass2_step_flags_ok isdecimal st l :
  flags_ok (section st) -> flags_ok (section (pass2_step isdecimal st l)).
Proof.
  intros H.
  unfold pass2_step, pass2_after_h3, pass2_actionable, pass2_default, emit.
  repeat match goal with
    | |- context [if ?c then _ else _] => destruct c
    | |- context [match ?c with Some _ => _ | None => _ end] => destruct c as [?g|]
    | |- context [match ?c with (_, _) => _ end] => destruct c
    end; trivial; reflexivity.
Qed.

Lemma pass2_flags_ok isdecimal lines : forall st,
  flags_ok (section st) -> flags_ok (section (pass2 isdecimal st lines)).
Proof.
  induction lines as [|l r IH]; intros st H; [exact H|].
  rewrite pass2_cons. now apply IH, pass2_step_flags_ok.
Qed.

(** In every state the second loop of [transform_content] goes through,
    a document is under Actionable Recommendations exactly when the flags
    are those of [actionable]. *)
Lemma reachable_actionable isdecimal content n :
  let '(st, temp_lines) := pass1 no_section (splitlines content) in
  let st2 := pass2 isdecimal (State2 st false []) (firstn n temp_lines) in
  in_actionable_recommendations (section st2) = true -> section st2 = actionable.
Proof.
  pose proof (pass1_flags_ok (splitlines content) no_section eq_refl) as H.
  destruct (pass1 no_section (splitlines content)) as [st temp_lines].
  cbn [fst] in H. intros st2 Har.
  pose proof (pass2_flags_ok isdecimal (firstn n temp_lines) (State2 st false []) H) as H2.
  fold st2 in H2. unfold flags_ok in H2. rewrite Har, andb_true_r in H2.
  destruct (section st2) as [kf ar]. simpl in *. now subst.
Qed.

(** A File Path line leaves the flags of the first loop as they are. *)
Lemma pass1_step_file_path st l :
  startswith (py "File Path: ") (strip l) = true -> fst (pass1_step st l) = st.
Proof. intros H. unfold pass1_step. now rewrite H. Qed.

(** * The claims *)

(** C2, as the specification has it: a blank line follows the File Path
    heading.  The code never inserts a blank line, so this is not what
    [transform_content] returns. *)
Lemma end_to_end_scenario_no_blank_line_inserted :
  transform_content ascii_digit scenario_input <>
  py "## File Path: `a.md`" ++ LF :: LF :: py "## Overall Assessment" ++ LF :: py "Looks fine.".
Proof. vm_compute. discriminate. Qed.

(** C2, amended: for the input of the end-to-end scenario,
    [transform_content] returns the two headings and the text line on three
    consecutive lines, with no blank line between the headings. *)
Theorem end_to_end_scenario (isdecimal : char -> bool) :
  transform_content isdecimal scenario_input =
  py "## File Path: `a.md`" ++ LF :: py "## Overall Assessment" ++ LF :: py "Looks fine.".
Proof. vm_compute. reflexivity. Qed.

(** C3: the second loop starts with the section flags the first loop ended
    with.  On a document that ends with the Actionable Recommendations label,
    an indented bullet before any label is rewritten by the rule of that
    section (four spaces of indentation) instead of being passed through
    trimmed, which is what the second loop does when it starts with no
    section (last equation). *)
Theorem pass2_starts_with_flags_of_pass1 :
  fst (pass1 no_section (splitlines late_label_input)) = actionable /\
  processed_of ascii_digit late_label_input =
    [py "intro"; py "    * item"; py "## Actionable Recommendations"] /\
  transform_content ascii_digit late_label_input =
    py "intro" ++ LF :: py "    * item" ++ LF :: py "## Actionable Recommendations" /\
  processed_lines (pass2 ascii_digit (State2 no_section false [])
                     (snd (pass1 no_section (splitlines late_label_input)))) =
    [py "intro"; py "* item"; py "## Actionable Recommendations"].
Proof. vm_compute. repeat split; reflexivity. Qed.

(** C4: in the first loop a File Path line leaves the section flags as they
    are ([pass1_step_file_path]), so a starred title after it, in a Key
    Findings section, still becomes a level-3 heading. *)
Theorem pass1_file_path_keeps_section (isdecimal : char -> bool) :
  pass1_step key_findings (py "File Path: a.md") =
    (key_findings, py "## File Path: `a.md`") /\
  pass1 no_section (splitlines file_path_in_findings_input) =
    (key_findings,
     [py "## Key Findings and Suggestions"; py "## File Path: `a.md`"; py "### Title"]) /\
  transform_content isdecimal file_path_in_findings_input =
    py "## Key Findings and Suggestions" ++ LF :: py "## File Path: `a.md`" ++ LF :: py "### Title".
Proof. vm_compute. repeat split; reflexivity. Qed.



(** C6: the text [transform_content] returns never contains three newlines
    in a row, and no two lines of it that follow each other are both
    blank. *)
Theorem transform_content_no_triple_newline (isdecimal : char -> bool) (content : str) :
  has_triple_newline (transform_content isdecimal content) = false /\
  (forall a b, transform_content isdecimal content <> a ++ LF :: LF :: LF :: b) /\
  no_adjacent_blank (splitlines (transform_content isdecimal content)) = true.
Proof.
  assert (H : has_triple_newline (transform_content isdecimal content) = false)
    by apply sub_newlines_no_triple.
  split; [exact H|]. split.
  - intros a b E. rewrite E, has_triple_newline_app in H. discriminate.
  - destruct (transform_content_lines isdecimal content) as [_ ->].
    now destruct (output_lines_props isdecimal content) as (_ & Hadj & _).
Qed.

(** C7: the text [transform_content] returns is its own [strip]: it is
    empty, or it starts and ends with a character that is not white space. *)
Theorem transform_content_stripped (isdecimal : char -> bool) (content : str) :
  strip (transform_content isdecimal content) = transform_content isdecimal content /\
  trimmed (transform_content isdecimal content).
Proof.
  pose proof (transform_content_trimmed isdecimal content) as H.
  split; [now apply trimmed_strip_id | exact H].
Qed.

(** C8, as the specification has it: the detector answers true exactly
    when the first non-blank line starts with the marker.  This fails for a
    first line that is indented: the detector trims the line before it
    looks at its start. *)
Lemma detector_accepts_indented_heading :
  ~ (forall f : reading,
       check_if_transformed f = true <->
       exists blanks l rest,
         f = fold_right Line (Line l rest) blanks /\
         Forall (fun b => is_blank b = true) blanks /\
         is_blank l = false /\ startswith (py "## File Path: `") l = true).
Proof.
  intros H.
  destruct (proj1 (H (Line (py "  ## File Path: `x`" ++ [LF]) Eof)) eq_refl)
    as (blanks & l & rest & E & Hb & _ & Hs).
  destruct blanks as [|b bs]; simpl in E.
  - injection E as <- _. vm_compute in Hs. discriminate.
  - injection E as <- _. inversion Hb as [|? ? Hb' _]. vm_compute in Hb'. discriminate.
Qed.

(** C8, amended: the detector answers true if and only if the trimmed form
    of the first non-blank line starts with the marker of a transformed File
    Path heading.  It answers false when the trimmed form of the first
    non-blank line does not, when the file ends before any non-blank line
    (the empty file included), and when reading fails before any non-blank
    line. *)
Theorem check_if_transformed_spec :
  (forall f : reading,
     check_if_transformed f = true <->
     exists blanks l rest,
       f = fold_right Line (Line l rest) blanks /\
       Forall (fun b => is_blank b = true) blanks /\
       is_blank l = false /\ startswith (py "## File Path: `") (strip l) = true) /\
  (forall blanks l rest,
     Forall (fun b => is_blank b = true) blanks -> is_blank l = false ->
     startswith (py "## File Path: `") (strip l) = false ->
     check_if_transformed (fold_right Line (Line l rest) blanks) = false) /\
  (forall blanks,
     Forall (fun b => is_blank b = true) blanks ->
     check_if_transformed (fold_right Line Eof blanks) = false /\
     check_if_transformed (fold_right Line Failure blanks) = false) /\
  check_if_transformed (reading_of []) = false.
Proof.
  repeat split.
  - apply check_first_nonblank.
  - intros (blanks & l & rest & -> & Hb & Hl & Hs).
    rewrite check_skip_blanks by assumption. simpl.
    unfold is_blank in Hl. now rewrite Hl.
  - intros blanks l rest Hb Hl Hs.
    rewrite check_skip_blanks by assumption. simpl.
    unfold is_blank in Hl. now rewrite Hl.
  - now rewrite check_skip_blanks.
  - now rewrite check_skip_blanks.
Qed.

(** A transformed file with blank lines first, a file that is not
    transformed, and a reading that fails after two blank lines. *)
Lemma check_if_transformed_spec_witness :
  check_if_transformed
    (reading_of (LF :: py "  " ++ LF :: py "## File Path: `x`" ++ LF :: py "rest")) = true /\
  check_if_transformed (reading_of (LF :: py "File Path: x" ++ LF :: py "rest")) = false /\
  check_if_transformed (Line [LF] (Line (py "  " ++ [LF]) Failure)) = false.
Proof.
  destruct check_if_transformed_spec as (Hiff & Hno & Hend & _).
  split; [|split].
  - apply (proj2 (Hiff (reading_of (LF :: py "  " ++ LF :: py "## File Path: `x`" ++ LF :: py "rest")))).
    exists [[LF]; py "  " ++ [LF]], (py "## File Path: `x`" ++ [LF]), (Line (py "rest") Eof).
    repeat split; try reflexivity. repeat constructor.
  - apply (Hno [[LF]] (py "File Path: x" ++ [LF]) (Line (py "rest") Eof));
      try reflexivity. repeat constructor.
  - apply (Hend [[LF]; py "  " ++ [LF]]). repeat constructor.
Defined.

(** C9: on an input made of white space only, the empty string included,
    [transform_content] returns the empty string. *)
Theorem transform_content_whitespace (isdecimal : char -> bool) (content : str) :
  forallb isspace content = true -> transform_content isdecimal content = [].
Proof.
  intros H. unfold transform_content.
  destruct (processed_of_blank isdecimal content H) as [-> | ->]; reflexivity.
Qed.

(** Spaces, a tab and line ends of several kinds. *)
Lemma transform_content_whitespace_witness :
  transform_content ascii_digit (py "  " ++ LF :: CR :: LF :: py "   " ++ [9%N; LF]) = [].
Proof.
  apply (transform_content_whitespace ascii_digit). reflexivity.
Defined.

(** C10: no line of the text [transform_content] returns has a trimmed
    form that is one of the three labels, or that starts as a File Path
    line does. *)
Theorem transform_content_no_raw_label (isdecimal : char -> bool) (content : str) :
  Forall (fun l =>
            strip l <> py "Overall Assessment:" /\
            strip l <> py "Key Findings and Suggestions:" /\
            strip l <> py "Actionable Recommendations:" /\
            startswith (py "File Path: ") (strip l) = false)
         (splitlines (transform_content isdecimal content)).
Proof.
  destruct (transform_content_lines isdecimal content) as [_ ->].
  destruct (processed_of_entries isdecimal content) as [Hent Hadj].
  destruct (trim_lines_props _ (entries_no_linebreak _ Hent) Hadj) as (_ & _ & _ & H).
  eapply Forall_impl; [|exact H]. cbv beta.
  intros l (e & He & ->).
  rewrite Forall_forall in Hent. destruct (Hent e He) as (_ & Hr & _).
  unfold is_raw_label in Hr. rewrite !orb_false_iff in Hr.
  destruct Hr as [[[H1 H2] H3] H4].
  repeat split; trivial; intros E; rewrite E in *; discriminate.
Qed.

(** C1, as the specification has it, fails.  A bullet with no text under
    Actionable Recommendations is emitted with a final space, which the
    trimming of the whole text removes when the bullet is the last line; the
    line that is left is no bullet for the second run.  A bullet before the
    first heading is another case, on the input of C3. *)
Lemma transform_content_not_idempotent :
  transform_content ascii_digit (transform_content ascii_digit empty_bullet_input)
    <> transform_content ascii_digit empty_bullet_input /\
  transform_content ascii_digit (transform_content ascii_digit late_label_input)
    <> transform_content ascii_digit late_label_input.
Proof. split; vm_compute; discriminate. Qed.

(** C1, amended: [transform_content] is idempotent on every document whose
    first non-blank line, if there is one, is a File Path line, one of the
    three section labels or a level-2 heading, and in which no line is a
    bullet marker alone.  The digit table is any in which the two bullet
    markers are no digits. *)
Theorem transform_content_idempotent (isdecimal : char -> bool) (content : str) :
  isdecimal star = false -> isdecimal dash = false ->
  starts_with_section content = true ->
  no_empty_bullet content = true ->
  transform_content isdecimal (transform_content isdecimal content)
  = transform_content isdecimal content.
Proof.
  intros Hstar Hdash Hs Hb.
  destruct (transform_content_lines isdecimal content) as [Ey El].
  destruct (output_lines_props isdecimal content) as (Hn & Hadj & Hlast & Hlab & Hhd).
  assert (Hp : processed_of isdecimal (transform_content isdecimal content)
               = output_lines isdecimal content).
  { unfold processed_of. rewrite El.
    rewrite pass1_passthrough by (trivial; reflexivity).
    now apply output_lines_refeed. }
  unfold transform_content at 1. rewrite Hp.
  rewrite drop_leading_blank_dropWhile, Hhd, dedup_blank_id by assumption.
  rewrite <- Ey.
  rewrite trimmed_strip_id by apply transform_content_trimmed.
  apply sub_newlines_id. apply sub_newlines_no_triple.
Qed.

(** A report with all four kinds of section, both kinds of list and
    blank lines. *)
Lemma transform_content_idempotent_witness :
  transform_content ascii_digit (transform_content ascii_digit report)
  = transform_content ascii_digit report.
Proof.
  apply (transform_content_idempotent ascii_digit report); reflexivity.
Defined.

(** * Further properties *)

(** ** Headings reach the text that is returned *)

Lemma startswith_prefix p s : startswith p (p ++ s) = true.
Proof. apply startswith_iff. now exists s. Qed.

Lemma file_path_heading_trimmed q :
  strip (py "## File Path: `" ++ q ++ py "`") = py "## File Path: `" ++ q ++ py "`".
Proof.
  replace (py "## File Path: `" ++ q ++ py "`")
    with (35%N :: (tl (py "## File Path: `") ++ q) ++ [96%N])
    by reflexivity.
  now apply strip_fixed_ends.
Qed.

Lemma pass1_step_file_path_line st l p :
  strip l = py "File Path: " ++ p ->
  pass1_step st l = (st, py "## File Path: `" ++ strip p ++ py "`").
Proof.
  intros E. unfold pass1_step. rewrite E, startswith_prefix.
  now rewrite skipn_app, skipn_all, Nat.sub_diag.
Qed.

Lemma pass1_In lines : forall st l,
  In l lines -> exists st', In (snd (pass1_step st' l)) (snd (pass1 st lines)).
Proof.
  induction lines as [|x r IH]; intros st l H; [destruct H|].
  rewrite pass1_lines. destruct H as [->|H].
  - exists st. now left.
  - destruct (IH (fst (pass1_step st x)) l H) as (st' & H'). exists st'. now right.
Qed.

Lemma pass2_step_appends isdecimal st l :
  exists out, processed_lines (pass2_step isdecimal st l) = processed_lines st ++ out /\
              length out <= 1.
Proof.
  destruct (pass2_step_emits isdecimal st l) as [(-> & _)|(fl & h3 & e & -> & _)].
  - exists []. rewrite app_nil_r. split; [reflexivity | simpl; lia].
  - exists [e]. split; [reflexivity | simpl; lia].
Qed.

Lemma pass2_appends isdecimal lines : forall st,
  exists out, processed_lines (pass2 isdecimal st lines) = processed_lines st ++ out /\
              length out <= length lines.
Proof.
  induction lines as [|l r IH]; intros st.
  - exists []. rewrite app_nil_r. split; [reflexivity | simpl; lia].
  - rewrite pass2_cons.
    destruct (IH (pass2_step isdecimal st l)) as (out & -> & Hlen).
    destruct (pass2_step_appends isdecimal st l) as (out1 & -> & Hlen1).
    exists (out1 ++ out). rewrite <- app_assoc. split; [reflexivity|].
    rewrite length_app. simpl. lia.
Qed.

Lemma pass2_emits_heading isdecimal lines : forall st l,
  In l lines -> startswith (py "## ") (strip l) = true ->
  In (strip l) (processed_lines (pass2 isdecimal st lines)).
Proof.
  induction lines as [|x r IH]; intros st l H Hh; [destruct H|].
  rewrite pass2_cons. destruct H as [->|H]; [|now apply IH].
  destruct (pass2_appends isdecimal r (pass2_step isdecimal st l)) as (out & -> & _).
  rewrite pass2_step_h2 by assumption. simpl.
  apply in_or_app. left. apply in_or_app. right. now left.
Qed.

Lemma ltrim_lines_In e ls :
  In e ls -> is_blank e = false -> lstrip e = e -> In e (ltrim_lines ls).
Proof.
  intros H Hb He. induction ls as [|l r IH]; [destruct H|]. simpl.
  destruct (is_blank l) eqn:E.
  - destruct H as [->|H]; [congruence | now apply IH].
  - destruct H as [->|H]; [left; exact He | now right].
Qed.

Lemma rtrim_lines_In e ls :
  In e ls -> is_blank e = false -> rstrip e = e -> In e (rtrim_lines ls).
Proof.
  intros H Hb He. induction ls as [|z r IH] using rev_ind; [destruct H|].
  rewrite rtrim_lines_snoc. apply in_app_or in H.
  destruct (is_blank z) eqn:E.
  - destruct H as [H|[->|[]]]; [now apply IH | congruence].
  - apply in_or_app. destruct H as [H|[->|[]]]; [now left | right; left; exact He].
Qed.

(** A line of [processed_lines] that is trimmed and not empty is a line of
    the text that is returned. *)
Lemma output_lines_In isdecimal content e :
  In e (processed_of isdecimal content) -> e <> [] -> strip e = e ->
  In e (splitlines (transform_content isdecimal content)).
Proof.
  intros H Hne He.
  destruct (transform_content_lines isdecimal content) as [_ ->].
  assert (Hb : is_blank e = false) by (unfold is_blank; rewrite He; now destruct e).
  unfold output_lines. apply rtrim_lines_In; [apply ltrim_lines_In | |]; trivial.
  - rewrite <- He. apply lstrip_strip.
  - rewrite <- He. apply rstrip_strip.
Qed.

Lemma heading_in_output isdecimal content l h :
  In l (splitlines content) ->
  (forall st', snd (pass1_step st' l) = h) ->
  strip h = h -> startswith (py "## ") h = true ->
  In h (splitlines (transform_content isdecimal content)).
Proof.
  intros Hl Hp Hs Hh.
  apply output_lines_In; [|now destruct h | exact Hs].
  unfold processed_of.
  destruct (pass1_In (splitlines content) no_section l Hl) as (st' & Hin).
  rewrite Hp in Hin.
  destruct (pass1 no_section (splitlines content)) as [leak temp]. cbn [snd] in Hin.
  rewrite <- Hs. apply pass2_emits_heading; [exact Hin | now rewrite Hs].
Qed.

(** X1.  Heading fidelity: a File Path line anywhere in the document gives
    the line with the path in a code span, and each of the three labels its
    level-2 heading, among the lines of the text that is returned. *)
Theorem headings_reach_output (isdecimal : char -> bool) (content l : str) :
  In l (splitlines content) ->
  (forall p, strip l = py "File Path: " ++ p ->
     In (py "## File Path: `" ++ strip p ++ py "`")
        (splitlines (transform_content isdecimal content))) /\
  (strip l = py "Overall Assessment:" ->
     In (py "## Overall Assessment") (splitlines (transform_content isdecimal content))) /\
  (strip l = py "Key Findings and Suggestions:" ->
     In (py "## Key Findings and Suggestions")
        (splitlines (transform_content isdecimal content))) /\
  (strip l = py "Actionable Recommendations:" ->
     In (py "## Actionable Recommendations")
        (splitlines (transform_content isdecimal content))).
Proof.
  intros Hl. repeat split.
  - intros p E. apply (heading_in_output isdecimal content l); trivial.
    + intros st'. now rewrite (pass1_step_file_path_line st' l p E).
    + apply file_path_heading_trimmed.
  - intros E. apply (heading_in_output isdecimal content l); trivial.
    intros st'. unfold pass1_step. now rewrite E.
  - intros E. apply (heading_in_output isdecimal content l); trivial.
    intros st'. unfold pass1_step. now rewrite E.
  - intros E. apply (heading_in_output isdecimal content l); trivial.
    intros st'. unfold pass1_step. now rewrite E.
Qed.

Lemma headings_reach_output_witness :
  In (py "## File Path: `foo/bar.txt`")
     (splitlines (transform_content ascii_digit
        (py "notes" ++ LF :: py "  File Path:   foo/bar.txt " ++ [LF]))).
Proof.
  assert (Hl : In (py "  File Path:   foo/bar.txt ")
                  (splitlines (py "notes" ++ LF :: py "  File Path:   foo/bar.txt " ++ [LF])))
    by (right; left; reflexivity).
  destruct (headings_reach_output ascii_digit _ _ Hl) as (H & _).
  apply (H (py "  foo/bar.txt")). reflexivity.
Defined.

(** ** The rules for titles, items and plain text *)

Lemma match_2c_title ws title :
  ws <> [] -> forallb isspace ws = true ->
  isspace (hd space title) = false -> title <> [] -> forallb dot title = true ->
  match_2c (star :: ws ++ title ++ [colon]) = Some title.
Proof.
  intros Hne Hws Hhd Ht Hdot. destruct title as [|c t]; [congruence|]. simpl in Hhd.
  unfold match_2c. rewrite N.eqb_refl.
  rewrite takeWhile_app_all, dropWhile_app_all by assumption.
  change ((c :: t) ++ [colon]) with (c :: t ++ [colon]).
  rewrite takeWhile_stop, dropWhile_stop, app_nil_r by assumption.
  assert (Hc : chomp (c :: t ++ [colon]) = c :: t ++ [colon]).
  { unfold chomp. change (c :: t ++ [colon]) with ((c :: t) ++ [colon]).
    now rewrite rev_app_distr. }
  rewrite Hc. change (c :: t ++ [colon]) with ((c :: t) ++ [colon]).
  rewrite rev_app_distr. cbn [rev app]. rewrite N.eqb_refl.
  change (rev t ++ [c]) with (rev (c :: t)). rewrite rev_involutive.
  destruct ws; [congruence|]. cbn [is_empty]. now rewrite Hdot.
Qed.

Lemma not_label_head c t :
  (c <> 79 /\ c <> 75 /\ c <> 65 /\ c <> 70)%N ->
  startswith (py "File Path: ") (c :: t) = false /\
  str_eqb (c :: t) (py "Overall Assessment:") = false /\
  str_eqb (c :: t) (py "Key Findings and Suggestions:") = false /\
  str_eqb (c :: t) (py "Actionable Recommendations:") = false.
Proof.
  intros H. pose proof (not_raw_label_head c t H) as Hr.
  unfold is_raw_label in Hr. rewrite !orb_false_iff in Hr. tauto.
Qed.

(** X2.  Titles of Key Findings: a line that reads, once trimmed, a star,
    white space, a title and a colon becomes the level-3 heading of the
    trimmed title while the first loop is in Key Findings, and is left as it
    is in any other section. *)
Theorem key_findings_title (st : flags) (l ws title : str) :
  strip l = star :: ws ++ title ++ [colon] ->
  ws <> [] -> forallb isspace ws = true ->
  title <> [] -> isspace (hd space title) = false -> forallb dot title = true ->
  pass1_step st l =
  (st, if in_key_findings st then py "### " ++ strip title else l).
Proof.
  intros E Hne Hws Ht Hhd Hdot. unfold pass1_step. rewrite E.
  destruct (not_label_head star (ws ++ title ++ [colon])) as (-> & -> & -> & ->);
    [unfold star; lia|].
  rewrite match_2c_title by assumption. now destruct (in_key_findings st).
Qed.

Lemma key_findings_title_witness :
  pass1_step key_findings (py "  * Some Title :") = (key_findings, py "### Some Title") /\
  pass1_step actionable (py "  * Some Title :") = (actionable, py "  * Some Title :").
Proof.
  split.
  - apply (key_findings_title key_findings (py "  * Some Title :") (py " ") (py "Some Title "));
      try reflexivity; discriminate.
  - apply (key_findings_title actionable (py "  * Some Title :") (py " ") (py "Some Title "));
      try reflexivity; discriminate.
Defined.







(** ** Lines are neither lost nor made up *)

Lemma count_nonblank_app a b :
  count_nonblank (a ++ b) = count_nonblank a + count_nonblank b.
Proof. unfold count_nonblank. now rewrite filter_app, length_app. Qed.

Lemma count_nonblank_cons l ls :
  count_nonblank (l :: ls) = (if is_blank l then 0 else 1) + count_nonblank ls.
Proof. unfold count_nonblank. simpl. now destruct (is_blank l). Qed.

Lemma marked_not_blank lead m t :
  forallb isspace lead = true -> isspace m = false -> is_blank (lead ++ m :: t) = false.
Proof.
  intros Hl Hm. unfold is_blank. now rewrite strip_indented.
Qed.

Lemma pass1_step_blankness st l : is_blank (snd (pass1_step st l)) = is_blank l.
Proof.
  destruct (is_blank l) eqn:E; [now rewrite pass1_step_blank|].
  destruct (pass1_step_line st l) as [(t & -> & _) | (-> & _)]; [|exact E].
  now apply (marked_not_blank []).
Qed.

Lemma pass1_counts lines : forall st,
  length (snd (pass1 st lines)) = length lines /\
  count_nonblank (snd (pass1 st lines)) = count_nonblank lines.
Proof.
  induction lines as [|l r IH]; intros st; rewrite pass1_lines; [now split|].
  destruct (IH (fst (pass1_step st l))) as [H1 H2].
  rewrite !count_nonblank_cons, pass1_step_blankness, H2. simpl. now rewrite H1.
Qed.

Lemma pass2_step_count isdecimal st l :
  count_nonblank (processed_lines (pass2_step isdecimal st l)) =
  count_nonblank (processed_lines st) + (if is_blank l then 0 else 1).
Proof.
  destruct (pass2_step_emits isdecimal st l)
    as [(-> & -> & _)|(fl & h3 & e & -> & _ & He)]; [lia|].
  simpl. rewrite count_nonblank_app, count_nonblank_cons. f_equal.
  change (count_nonblank []) with 0. rewrite Nat.add_0_r.
  destruct He as [->|[(g & Hg & ->)|(lead & m & g & Hs & ->)]].
  - now rewrite is_blank_strip.
  - change (py "- " ++ strip g) with ([] ++ dash :: space :: strip g).
    rewrite (marked_not_blank [] dash) by reflexivity.
    destruct (is_blank l) eqn:E; [|reflexivity].
    rewrite match_2d_blank in Hg by assumption. discriminate.
  - destruct (sub_item_match_inv _ _ _ _ Hs) as (El & Hm & _).
    rewrite marked_not_blank.
    + destruct (is_blank l) eqn:E; [|reflexivity].
      rewrite sub_item_match_blank in Hs by assumption. discriminate.
    + destruct (8 <=? length lead); [|reflexivity]. rewrite El. apply takeWhile_all.
    + now apply marker_nonspace.
Qed.

Lemma pass2_count isdecimal lines : forall st,
  count_nonblank (processed_lines (pass2 isdecimal st lines)) =
  count_nonblank (processed_lines st) + count_nonblank lines.
Proof.
  induction lines as [|l r IH]; intros st; [simpl; unfold count_nonblank; simpl; lia|].
  rewrite pass2_cons, IH, pass2_step_count, count_nonblank_cons. lia.
Qed.

Lemma ltrim_lines_counts ls :
  count_nonblank (ltrim_lines ls) = count_nonblank ls /\
  length (ltrim_lines ls) <= length ls.
Proof.
  induction ls as [|l r [IH1 IH2]]; [now split|]. simpl.
  destruct (is_blank l) eqn:E.
  - rewrite count_nonblank_cons, E. split; [exact IH1 | lia].
  - rewrite !count_nonblank_cons, is_blank_lstrip. split; [reflexivity | simpl; lia].
Qed.

Lemma rtrim_lines_counts ls :
  count_nonblank (rtrim_lines ls) = count_nonblank ls /\
  length (rtrim_lines ls) <= length ls.
Proof.
  induction ls as [|z r [IH1 IH2]] using rev_ind; [now split|].
  rewrite rtrim_lines_snoc, count_nonblank_app, count_nonblank_cons, length_app.
  change (count_nonblank []) with 0. cbn [length].
  destruct (is_blank z) eqn:E.
  - split; [rewrite IH1 |]; lia.
  - rewrite count_nonblank_app, count_nonblank_cons, is_blank_rstrip, E, length_app.
    split; [reflexivity | simpl; lia].
Qed.

(** X5.  [transform_content] neither drops nor adds a line that is not
    blank: the text that is returned has as many non-blank lines as the
    document, and no more lines in all. *)
Theorem transform_content_keeps_lines (isdecimal : char -> bool) (content : str) :
  count_nonblank (splitlines (transform_content isdecimal content))
    = count_nonblank (splitlines content) /\
  length (splitlines (transform_content isdecimal content))
    <= length (splitlines content).
Proof.
  destruct (transform_content_lines isdecimal content) as [_ ->].
  unfold output_lines, processed_of.
  destruct (pass1_counts (splitlines content) no_section) as [Hlen Hcount].
  destruct (pass1 no_section (splitlines content)) as [leak temp]. cbn [snd] in *.
  destruct (rtrim_lines_counts
              (ltrim_lines (processed_lines (pass2 isdecimal (State2 leak false []) temp))))
    as [Hr1 Hr2].
  destruct (ltrim_lines_counts
              (processed_lines (pass2 isdecimal (State2 leak false []) temp)))
    as [Hl1 Hl2].
  destruct (pass2_appends isdecimal temp (State2 leak false [])) as (out & Eout & Hout).
  split.
  - rewrite Hr1, Hl1, pass2_count. simpl. exact Hcount.
  - rewrite Eout in *. cbn [processed_lines app] in *. lia.
Qed.

(** ** The loops that tidy blank lines *)

Lemma no_adjacent_blank_snoc acc e :
  no_adjacent_blank acc = true ->
  acc = [] \/ is_blank (last acc []) && is_blank e = false ->
  no_adjacent_blank (acc ++ [e]) = true.
Proof.
  intros Hadj H. destruct acc as [|z acc _] using rev_ind; [reflexivity|].
  destruct H as [H|H]; [now destruct acc|]. rewrite last_last in H.
  induction acc as [|a acc IH].
  - simpl. now rewrite H.
  - simpl app in *. simpl no_adjacent_blank in *.
    apply andb_true_iff in Hadj as [H1 H2]. rewrite IH by assumption.
    rewrite andb_true_r. destruct acc; exact H1.
Qed.

Lemma dedup_step_spec acc l :
  no_adjacent_blank acc = true ->
  no_adjacent_blank (dedup_step acc l) = true /\
  filter (fun x => negb (is_blank x)) (dedup_step acc l) =
  filter (fun x => negb (is_blank x)) acc ++ filter (fun x => negb (is_blank x)) [l].
Proof.
  intros Hadj. unfold dedup_step.
  destruct (is_blank l && negb (is_empty acc) && is_blank (last acc [])) eqn:E.
  - apply andb_true_iff in E as [[Hb _]%andb_true_iff _].
    simpl. rewrite Hb. simpl. now rewrite app_nil_r.
  - split; [|apply filter_app].
    apply no_adjacent_blank_snoc; [assumption|].
    destruct acc as [|a acc]; [now left | right].
    destruct (is_blank l), (is_blank (last (a :: acc) [])); try reflexivity.
    discriminate.
Qed.

Lemma dedup_blank_fold pl : forall acc,
  no_adjacent_blank acc = true ->
  no_adjacent_blank (fold_left dedup_step pl acc) = true /\
  filter (fun x => negb (is_blank x)) (fold_left dedup_step pl acc) =
  filter (fun x => negb (is_blank x)) acc ++ filter (fun x => negb (is_blank x)) pl.
Proof.
  induction pl as [|l r IH]; intros acc H; simpl fold_left.
  - split; [assumption | now rewrite app_nil_r].
  - destruct (dedup_step_spec acc l H) as [H1 H2].
    destruct (IH _ H1) as [H3 H4]. split; [assumption|].
    rewrite H4, H2, <- app_assoc. f_equal.
    change (l :: r) with ([l] ++ r). now rewrite filter_app.
Qed.

(** X6.  The loop that fills [deduped_blank_lines], on any list of
    lines: no two blank lines follow each other in what it returns, the
    lines that are not blank are all kept, in their order, and a second
    pass changes nothing. *)
Theorem dedup_blank_spec (pl : list str) :
  no_adjacent_blank (dedup_blank pl) = true /\
  filter (fun l => negb (is_blank l)) (dedup_blank pl)
    = filter (fun l => negb (is_blank l)) pl /\
  dedup_blank (dedup_blank pl) = dedup_blank pl.
Proof.
  destruct (dedup_blank_fold pl [] eq_refl) as [H1 H2].
  repeat split; [exact H1 | exact H2 | now apply dedup_blank_id].
Qed.

Lemma leading_blank_run ls :
  no_adjacent_blank ls = true -> length (takeWhile is_blank ls) <= 1.
Proof.
  destruct ls as [|a [|b r]]; simpl; intros H.
  - lia.
  - destruct (is_blank a); simpl; lia.
  - apply andb_true_iff in H as [H _].
    destruct (is_blank a), (is_blank b); simpl in *; try lia; discriminate.
Qed.

(** X7.  On the lines the second loop leaves, the later passes have
    nothing to do: the loop that removes repeated blank lines returns its
    input, [re.sub] finds no run of three newlines, and at most one blank
    line is removed at the start.  The text that is returned is the trimmed
    join of the lines of [processed_lines]. *)
Theorem normalisation_is_idle (isdecimal : char -> bool) (content : str) :
  let pl := drop_leading_blank (processed_of isdecimal content) in
  dedup_blank pl = pl /\
  sub_newlines (strip (join_lines pl)) = strip (join_lines pl) /\
  length (processed_of isdecimal content) <= S (length pl) /\
  transform_content isdecimal content
    = strip (join_lines (processed_of isdecimal content)).
Proof.
  intros pl.
  destruct (processed_of_entries isdecimal content) as [Hent Hadj].
  pose proof (entries_no_linebreak _ Hent) as Hn.
  assert (Hpl : pl = dropWhile is_blank (processed_of isdecimal content))
    by apply drop_leading_blank_dropWhile.
  assert (Hd : dedup_blank pl = pl).
  { apply dedup_blank_id. rewrite Hpl.
    apply (no_adjacent_blank_suffix (takeWhile is_blank (processed_of isdecimal content))).
    now rewrite takeWhile_dropWhile. }
  assert (Hs : strip (join_lines pl) = strip (join_lines (processed_of isdecimal content))).
  { now rewrite !strip_join, Hpl, ltrim_lines_dropWhile. }
  assert (Hsub : sub_newlines (strip (join_lines pl)) = strip (join_lines pl)).
  { rewrite Hs, strip_join.
    destruct (trim_lines_props _ Hn Hadj) as (Hn' & Ha' & _).
    apply sub_newlines_id. now apply join_lines_no_triple. }
  repeat split; trivial.
  - pose proof (leading_blank_run _ Hadj) as Hrun.
    rewrite <- (takeWhile_dropWhile is_blank (processed_of isdecimal content)) at 1.
    rewrite length_app, <- Hpl. lia.
  - unfold transform_content. fold pl. now rewrite Hd, Hsub.
Qed.

(** ** The convention for line ends *)

Lemma splitlines_break x s :
  is_linebreak x = true -> (x =? CR)%N = false ->
  splitlines (x :: s) = [] :: splitlines s.
Proof.
  intros Hx Hcr. simpl. rewrite Hx, Hcr. now destruct s.
Qed.

Lemma read_text_cons x r :
  (x =? LF)%N = false -> (x =? CR)%N = false -> read_text (x :: r) = x :: read_text r.
Proof.
  intros H1 H2. unfold read_text. simpl. rewrite H1, H2.
  now destruct (readlines r).
Qed.

Lemma splitlines_read_text content : splitlines (read_text content) = splitlines content.
Proof.
  induction content as [s IH] using str_len_ind. destruct s as [|x r]; [reflexivity|].
  destruct (N.eqb_spec x LF) as [->|Hlf].
  - change (read_text (LF :: r)) with (LF :: read_text r).
    rewrite !splitlines_break by reflexivity. f_equal. apply IH. simpl. lia.
  - destruct (N.eqb_spec x CR) as [->|Hcr].
    + destruct r as [|d r']; [reflexivity|].
      destruct (N.eqb_spec d LF) as [->|Hd].
      * change (read_text (CR :: LF :: r')) with (LF :: read_text r').
        rewrite splitlines_break by reflexivity.
        change (splitlines (CR :: LF :: r')) with ([] :: splitlines r').
        f_equal. apply IH. simpl. lia.
      * assert (E : read_text (CR :: d :: r') = LF :: read_text (d :: r')).
        { unfold read_text. cbn [readlines]. apply N.eqb_neq in Hd.
          change (CR =? LF)%N with false. change (CR =? CR)%N with true.
          cbv iota. now rewrite Hd. }
        rewrite E, splitlines_break by reflexivity.
        assert (E' : splitlines (CR :: d :: r') = [] :: splitlines (d :: r')).
        { cbn [splitlines]. apply N.eqb_neq in Hd. change (is_linebreak CR) with true.
          cbv iota. rewrite Hd, andb_false_r. reflexivity. }
        rewrite E'. f_equal. apply IH. simpl. lia.
    + apply N.eqb_neq in Hlf, Hcr. rewrite read_text_cons by assumption.
      destruct (is_linebreak x) eqn:Hx.
      * rewrite !splitlines_break by assumption. f_equal. apply IH. simpl. lia.
      * simpl. rewrite Hx. rewrite IH by (simpl; lia). reflexivity.
Qed.

(** X8.  The text that is returned does not depend on the convention for
    line ends: reading the file in text mode, which turns [\r\n] and [\r]
    into [\n], changes neither the lines [splitlines] finds nor what
    [transform_content] returns. *)
Theorem transform_content_read_text (isdecimal : char -> bool) (content : str) :
  splitlines (read_text content) = splitlines content /\
  transform_content isdecimal (read_text content) = transform_content isdecimal content.
Proof.
  split; [apply splitlines_read_text|].
  unfold transform_content, processed_of. now rewrite splitlines_read_text.
Qed.

(** ** The detector on a whole text *)

Lemma rstrip_prefix s : exists w, s = rstrip s ++ w.
Proof.
  unfold rstrip. exists (rev (takeWhile isspace (rev s))).
  rewrite <- rev_app_distr, takeWhile_dropWhile. now rewrite rev_involutive.
Qed.

Lemma readlines_first_line r :
  exists tail,
    hd [] (readlines r) =
      takeWhile (fun c => negb (c =? LF)%N && negb (c =? CR)%N) r ++ tail /\
    forallb isspace tail = true.
Proof.
  induction r as [|x r IH]; [now exists []|]. simpl.
  destruct (N.eqb_spec x LF) as [->|Hlf]; [now exists [LF]|].
  destruct (N.eqb_spec x CR) as [->|Hcr].
  - exists [LF]. destruct r as [|d r']; [now split|]. now destruct (d =? LF)%N.
  - destruct IH as (tail & E & Ht). exists tail. simpl. split; [|exact Ht].
    destruct (readlines r) as [|l ls]; simpl in *; now rewrite <- E.
Qed.

(** A marker without line end, which ends with a character that is not
    white space, starts the trimmed first line when it starts the text. *)
Lemma startswith_first_line m r :
  forallb (fun c => negb (c =? LF)%N && negb (c =? CR)%N) m = true ->
  rstrip m = m ->
  startswith m (rstrip (hd [] (readlines r))) = startswith m r.
Proof.
  intros Hm Hr. destruct (readlines_first_line r) as (tail & -> & Ht).
  set (nb := fun c => negb (c =? LF)%N && negb (c =? CR)%N) in *.
  rewrite rstrip_app_all by assumption.
  apply eq_true_iff_eq. rewrite !startswith_iff. split.
  - intros (u & E). destruct (rstrip_prefix (takeWhile nb r)) as (w & Ew).
    exists (u ++ w ++ dropWhile nb r).
    rewrite <- (takeWhile_dropWhile nb r) at 1. rewrite Ew, E at 1.
    now rewrite <- !app_assoc.
  - intros (u & ->). rewrite takeWhile_app_all by assumption.
    destruct (rstrip (takeWhile nb u)) as [|c t] eqn:Eu.
    + exists []. rewrite app_nil_r.
      rewrite rstrip_app_all by now apply rstrip_nil_all. exact Hr.
    + exists (c :: t). rewrite rstrip_app; rewrite Eu; [reflexivity | discriminate].
Qed.

Lemma readlines_cons x r :
  (x =? LF)%N = false -> (x =? CR)%N = false ->
  readlines (x :: r) = (x :: hd [] (readlines r)) :: tl (readlines r).
Proof. intros H1 H2. simpl. rewrite H1, H2. now destruct (readlines r). Qed.

Lemma check_line_space x l rest :
  isspace x = true ->
  check_if_transformed (Line (x :: l) rest) = check_if_transformed (Line l rest).
Proof.
  intros H. simpl. change (x :: l) with ([x] ++ l).
  rewrite strip_app_all; [reflexivity | simpl; now rewrite H].
Qed.

Lemma space_not_line_end x :
  isspace x = false -> (x =? LF)%N = false /\ (x =? CR)%N = false.
Proof.
  intros H. split.
  - destruct (N.eqb_spec x LF); [subst; discriminate | reflexivity].
  - destruct (N.eqb_spec x CR); [subst; discriminate | reflexivity].
Qed.

Lemma check_reading_of content :
  check_if_transformed (reading_of content)
  = startswith (py "## File Path: `") (lstrip content).
Proof.
  induction content as [s IH] using str_len_ind. destruct s as [|x r]; [reflexivity|].
  assert (IHr : check_if_transformed (reading_of r)
                = startswith (py "## File Path: `") (lstrip r))
    by (apply IH; simpl; lia).
  destruct (N.eqb_spec x LF) as [->|Hlf]; [exact IHr|].
  destruct (N.eqb_spec x CR) as [->|Hcr].
  - destruct r as [|d r']; [reflexivity|].
    destruct (N.eqb_spec d LF) as [->|Hd].
    + change (reading_of (CR :: LF :: r')) with (Line [LF] (reading_of r')).
      change (lstrip (CR :: LF :: r')) with (lstrip r').
      apply IH. simpl. lia.
    + assert (E : reading_of (CR :: d :: r') = Line [LF] (reading_of (d :: r'))).
      { unfold reading_of. cbn [readlines]. apply N.eqb_neq in Hd.
        change (CR =? LF)%N with false. change (CR =? CR)%N with true.
        cbv iota. now rewrite Hd. }
      rewrite E. exact IHr.
  - apply N.eqb_neq in Hlf, Hcr. unfold reading_of.
    rewrite readlines_cons by assumption. cbn [fold_right].
    destruct (isspace x) eqn:Hx.
    + rewrite check_line_space by assumption.
      unfold lstrip. cbn [dropWhile]. rewrite Hx. fold (lstrip r). rewrite <- IHr.
      unfold reading_of. destruct (readlines r) as [|l ls]; reflexivity.
    + rewrite lstrip_cons by assumption. cbn [check_if_transformed].
      rewrite strip_cons by assumption. cbn [is_empty].
      change (py "## File Path: `") with (35%N :: py "# File Path: `").
      cbn [startswith]. f_equal.
      now apply startswith_first_line.
Qed.

(** X9.  On a file that is read without failure, the detector answers
    whether the text, after the white space that starts it, starts with the
    marker of a transformed File Path heading; white space before the text,
    blank lines included, does not change the answer. *)
Theorem check_if_transformed_text (content : str) :
  check_if_transformed (reading_of content)
    = startswith (py "## File Path: `") (lstrip content) /\
  forall ws, forallb isspace ws = true ->
    check_if_transformed (reading_of (ws ++ content))
    = check_if_transformed (reading_of content).
Proof.
  split; [apply check_reading_of|].
  intros ws Hws. rewrite !check_reading_of. now rewrite lstrip_app_all.
Qed.

Lemma check_if_transformed_text_witness :
  check_if_transformed
    (reading_of (py "  " ++ CR :: LF :: 9%N :: py "## File Path: `a.md`" ++ LF :: py "text"))
  = true.
Proof.
  destruct (check_if_transformed_text (py "## File Path: `a.md`" ++ LF :: py "text"))
    as [H1 H2].
  change (py "  " ++ CR :: LF :: 9%N :: py "## File Path: `a.md`" ++ LF :: py "text")
    with ((py "  " ++ [CR; LF; 9%N]) ++ py "## File Path: `a.md`" ++ LF :: py "text").
  rewrite H2 by reflexivity. rewrite H1. reflexivity.
Defined.

(** ** The detector on the text that is returned *)

Lemma startswith_rstrip m s :
  rstrip m = m -> startswith m (rstrip s) = startswith m s.
Proof.
  intros Hr. apply eq_true_iff_eq. rewrite !startswith_iff. split.
  - intros (u & E). destruct (rstrip_prefix s) as (w & Ew).
    exists (u ++ w). rewrite Ew, E at 1. now rewrite <- app_assoc.
  - intros (u & ->). destruct (rstrip u) as [|c t] eqn:Eu.
    + exists []. rewrite app_nil_r.
      rewrite rstrip_app_all by now apply rstrip_nil_all. exact Hr.
    + exists (c :: t). rewrite rstrip_app; rewrite Eu; [reflexivity | discriminate].
Qed.

Lemma startswith_before_newline m : forall s u,
  forallb dot m = true -> startswith m (s ++ LF :: u) = startswith m s.
Proof.
  induction m as [|a m IH]; intros s u H; [reflexivity|].
  simpl in H. apply andb_true_iff in H as [Ha Hm].
  destruct s as [|b s]; simpl.
  - unfold dot in Ha. apply negb_true_iff in Ha. now rewrite Ha.
  - now rewrite IH.
Qed.

Lemma startswith_first_of_join m l ls :
  forallb dot m = true -> startswith m (join_lines (l :: ls)) = startswith m l.
Proof.
  intros H. destruct ls as [|l' ls]; [reflexivity|].
  rewrite join_lines_cons by discriminate. now apply startswith_before_newline.
Qed.

Lemma trimmed_lstrip s : trimmed s -> lstrip s = s.
Proof. intros [|c H|c a z Hc Hz]; [reflexivity | |]; now apply lstrip_cons. Qed.

Lemma processed_of_first isdecimal content h rest :
  dropWhile is_blank (splitlines content) = h :: rest ->
  exists leak blanks out,
    processed_of isdecimal content =
      processed_lines (pass2_step isdecimal (State2 leak false blanks)
                         (snd (pass1_step no_section h))) ++ out /\
    Forall (fun b => is_blank b = true) blanks.
Proof.
  intros Hd.
  pose proof (takeWhile_dropWhile is_blank (splitlines content)) as El.
  rewrite Hd in El.
  assert (Hbl : Forall (fun l => is_blank l = true) (takeWhile is_blank (splitlines content))).
  { apply Forall_forall. apply forallb_forall. apply takeWhile_all. }
  unfold processed_of. rewrite <- El.
  set (blank_lines := takeWhile is_blank (splitlines content)) in *.
  rewrite pass1_app, (pass1_blank no_section blank_lines) by assumption. cbn [fst snd].
  rewrite pass1_cons. cbn [fst snd].
  rewrite pass2_app, pass2_blanks by assumption. rewrite pass2_cons.
  set (leak := fst (pass1 (fst (pass1_step no_section h)) rest)).
  set (blanks := if is_empty blank_lines then [] else [[]] : list (list N)).
  destruct (pass2_appends isdecimal (snd (pass1 (fst (pass1_step no_section h)) rest))
              (pass2_step isdecimal (State2 leak false blanks)
                 (snd (pass1_step no_section h)))) as (out & -> & _).
  exists leak, blanks, out. split; [reflexivity|].
  unfold blanks. destruct (is_empty blank_lines); repeat constructor.
Qed.

(** The first line of the text that is returned is the first line the
    second loop appends that is not blank, trimmed on the left or on both
    sides. *)
Lemma output_lines_first blanks e out :
  Forall (fun b => is_blank b = true) blanks -> is_blank e = false ->
  exists first more,
    rtrim_lines (ltrim_lines (blanks ++ e :: out)) = first :: more /\
    (first = lstrip e \/ first = strip e).
Proof.
  intros Hbl He. rewrite ltrim_lines_app_blank by assumption.
  simpl ltrim_lines. rewrite He.
  destruct (rtrim_lines_spec (lstrip e :: out)) as [E|(a & z & bl & E & Hz & ->)].
  - exfalso. assert (Hin : In (rstrip (lstrip e)) (rtrim_lines (lstrip e :: out))).
    { unfold rtrim_lines in *. simpl rev in *.
      destruct (dropWhile is_blank (rev out ++ [lstrip e])) as [|z r] eqn:Ed.
      - apply dropWhile_nil_all in Ed. rewrite forallb_app in Ed.
        apply andb_true_iff in Ed as [_ Ed]. simpl in Ed.
        rewrite is_blank_lstrip, He in Ed. discriminate.
      - simpl in E. apply app_eq_nil in E as [_ E]. discriminate. }
    rewrite E in Hin. destruct Hin.
  - destruct a as [|x a]; simpl in E; injection E as E1 E2; subst.
    + exists (rstrip (lstrip e)), []. split; [reflexivity | now right].
    + exists (lstrip e), (a ++ [rstrip z]). split; [reflexivity | now left].
Qed.

Lemma strip_h3_prefix t :
  startswith (py "## File Path: `") (strip (py "### " ++ t)) = false.
Proof.
  change (py "### " ++ t) with (35 :: 35 :: 35 :: 32 :: t)%N.
  rewrite strip_cons by reflexivity. rewrite !rstrip_cons by reflexivity. reflexivity.
Qed.

(** The File Path heading is the only line of [temp_lines] that starts
    with the marker, apart from a line that had it already. *)
Lemma pass1_step_marker st h :
  startswith (py "## File Path: `") (strip (snd (pass1_step st h)))
  = startswith (py "File Path: ") (strip h)
    || startswith (py "## File Path: `") (strip h).
Proof.
  unfold pass1_step.
  destruct (startswith (py "File Path: ") (strip h)) eqn:E1.
  { cbn [snd]. rewrite file_path_heading_trimmed. now rewrite startswith_prefix. }
  destruct (str_eqb (strip h) (py "Overall Assessment:")) eqn:E2.
  { apply str_eqb_eq in E2. now rewrite E2. }
  destruct (str_eqb (strip h) (py "Key Findings and Suggestions:")) eqn:E3.
  { apply str_eqb_eq in E3. now rewrite E3. }
  destruct (str_eqb (strip h) (py "Actionable Recommendations:")) eqn:E4.
  { apply str_eqb_eq in E4. now rewrite E4. }
  destruct (if in_key_findings st then match_2c (strip h) else None) as [g|] eqn:Eg;
    [|reflexivity].
  cbn [snd]. rewrite strip_h3_prefix.
  destruct (in_key_findings st); [|discriminate].
  unfold match_2c in Eg. destruct (strip h) as [|c r]; [discriminate|].
  destruct (N.eqb_spec c star) as [->|]; [reflexivity | discriminate].
Qed.

Lemma check_reading_of_output isdecimal content :
  check_if_transformed (reading_of (transform_content isdecimal content))
  = starts_with_file_path content.
Proof.
  rewrite check_reading_of.
  rewrite trimmed_lstrip by apply transform_content_trimmed.
  unfold starts_with_file_path.
  destruct (dropWhile is_blank (splitlines content)) as [|h rest] eqn:Hd.
  - assert (Hl : Forall (fun l => is_blank l = true) (splitlines content)).
    { apply Forall_forall, forallb_forall. now apply dropWhile_nil_all. }
    unfold transform_content.
    destruct (processed_of_blank_lines isdecimal content Hl) as [-> | ->]; reflexivity.
  - assert (Hh : is_blank h = false) by (eapply dropWhile_head; exact Hd).
    destruct (processed_of_first isdecimal content h rest Hd)
      as (leak & blanks & out & EP & Hbl).
    remember (snd (pass1_step no_section h)) as h' eqn:Eh'.
    assert (Hh' : is_blank h' = false) by (rewrite Eh'; now rewrite pass1_step_blankness).
    pose proof (pass2_step_count isdecimal (State2 leak false blanks) h') as Hcount.
    rewrite Hh' in Hcount.
    destruct (pass2_step_emits isdecimal (State2 leak false blanks) h')
      as [(_ & Hb & _)|(fl & h3 & e & Estep & _ & He)]; [congruence|].
    rewrite Estep in EP, Hcount. cbn [emit processed_lines] in EP, Hcount.
    assert (Hne : is_blank e = false).
    { rewrite count_nonblank_app, count_nonblank_cons in Hcount.
      change (count_nonblank []) with 0 in Hcount.
      destruct (is_blank e); [lia | reflexivity]. }
    rewrite <- app_assoc in EP. cbn [app] in EP.
    destruct (transform_content_lines isdecimal content) as [-> _].
    unfold output_lines. rewrite EP.
    destruct (output_lines_first blanks e out Hbl Hne) as (first & more & -> & Hfirst).
    rewrite startswith_first_of_join by reflexivity.
    assert (Hm : startswith (py "## File Path: `") first
                 = startswith (py "## File Path: `") (strip e)).
    { destruct Hfirst as [-> | ->]; [|reflexivity].
      unfold strip. now rewrite startswith_rstrip. }
    rewrite Hm. clear Hm Hfirst EP Estep Hcount.
    destruct He as [->|[(g & Hg & ->)|(lead & m & g & Hs & ->)]].
    + rewrite strip_idem, Eh'. apply pass1_step_marker.
    + change (py "- " ++ strip g) with ([] ++ dash :: space :: strip g).
      rewrite strip_indented by reflexivity.
      destruct (match_2d_inv _ _ Hg) as (r & El & Hlen & _).
      destruct (pass1_step_line no_section h) as [(t & Et & _) | (Eh & Hr)];
        rewrite <- Eh' in *.
      * rewrite Et in Hlen. simpl in Hlen. lia.
      * rewrite Eh in El. rewrite El.
        rewrite strip_indented by (apply takeWhile_all || reflexivity). reflexivity.
    + destruct (sub_item_match_inv _ _ _ _ Hs) as (Elead & Hmk & r & El & _).
      pose proof (marker_nonspace m Hmk) as Hm'.
      assert (Hlead : forallb isspace (if 8 <=? length lead then lead else py "    ") = true).
      { destruct (8 <=? length lead); [|reflexivity]. rewrite Elead. apply takeWhile_all. }
      rewrite strip_indented by assumption.
      destruct (pass1_step_line no_section h) as [(t & Et & _) | (Eh & Hr)];
        rewrite <- Eh' in *.
      * exfalso. rewrite Et in Elead. simpl in Elead. subst lead.
        rewrite Et in El. simpl in El. injection El as <- _.
        destruct Hmk; discriminate.
      * rewrite Eh in El. rewrite El.
        rewrite strip_indented by (assumption || (rewrite Elead; apply takeWhile_all)).
        destruct Hmk as [-> | ->]; reflexivity.
Qed.

(** X10.  The detector recognises the text [transform_content] returns
    exactly when the first non-blank line of the document is a File Path
    line, or the File Path heading of a transformed document; the text then
    starts with the marker. *)
Theorem check_if_transformed_output (isdecimal : char -> bool) (content : str) :
  check_if_transformed (reading_of (transform_content isdecimal content))
    = starts_with_file_path content /\
  startswith (py "## File Path: `") (transform_content isdecimal content)
    = starts_with_file_path content.
Proof.
  split; [apply check_reading_of_output|].
  rewrite <- check_reading_of_output with (isdecimal := isdecimal).
  rewrite check_reading_of.
  now rewrite trimmed_lstrip by apply transform_content_trimmed.
Qed.

(** ** The loop over the command line *)

Section MainLoop.

Variable isdecimal : char -> bool.

Lemma update_other fs p f q : str_eqb q p = false -> update fs p f q = fs q.
Proof. intros H. unfold update. now rewrite H. Qed.

Lemma update_same fs p f : update fs p f p = Some f.
Proof. unfold update. now rewrite (proj2 (str_eqb_eq p p) eq_refl). Qed.

(** An iteration leaves every file but the one it is given. *)
Lemma main_step_other r p q :
  str_eqb q p = false -> files (main_step isdecimal r p) q = files r q.
Proof.
  intros H. unfold main_step.
  destruct (negb (endswith (py ".md") p)); [reflexivity|].
  destruct (files r p) as [f|]; [|reflexivity].
  destruct (check_if_transformed (lines_of f)); [reflexivity|].
  destruct f as [content [|after]|seen]; cbn [files]; trivial; now apply update_other.
Qed.

Lemma main_step_not_markdown r p :
  endswith (py ".md") p = false -> files (main_step isdecimal r p) = files r.
Proof. intros H. unfold main_step. now rewrite H. Qed.

Lemma main_step_settled r p q :
  settled (files r q) -> files (main_step isdecimal r p) q = files r q.
Proof.
  intros H. destruct (str_eqb q p) eqn:E; [|now apply main_step_other].
  apply str_eqb_eq in E. subst q. unfold main_step.
  destruct (negb (endswith (py ".md") p)); [reflexivity|].
  destruct (files r p) as [f|] eqn:Ef; [|exact Ef].
  destruct f as [content w|seen]; simpl in H.
  - cbn [lines_of]. rewrite H. exact Ef.
  - destruct (check_if_transformed (lines_of (Broken seen))); exact Ef.
Qed.

Lemma main_step_counts r p :
  files_processed_count (main_step isdecimal r p)
    + files_skipped_count (main_step isdecimal r p)
  <= S (files_processed_count r + files_skipped_count r) /\
  files_processed_count r <= files_processed_count (main_step isdecimal r p) /\
  files_skipped_count r <= files_skipped_count (main_step isdecimal r p).
Proof.
  unfold main_step.
  destruct (negb (endswith (py ".md") p)); [simpl; lia|].
  destruct (files r p) as [f|]; [|simpl; lia].
  destruct (check_if_transformed (lines_of f)); [simpl; lia|].
  destruct f as [content [|after]|seen]; simpl; lia.
Qed.

Lemma main_loop_files args : forall r q,
  ~ In q args \/ endswith (py ".md") q = false \/ settled (files r q) ->
  files (fold_left (main_step isdecimal) args r) q = files r q.
Proof.
  induction args as [|p args IH]; intros r q H; [reflexivity|].
  simpl fold_left.
  assert (Hstep : files (main_step isdecimal r p) q = files r q).
  { destruct H as [H|[H|H]].
    - apply main_step_other. destruct (str_eqb q p) eqn:E; [|reflexivity].
      apply str_eqb_eq in E. subst. exfalso. apply H. now left.
    - destruct (str_eqb q p) eqn:E; [|now apply main_step_other].
      apply str_eqb_eq in E. subst. now rewrite main_step_not_markdown.
    - now apply main_step_settled. }
  rewrite IH; [exact Hstep|].
  destruct H as [H|[H|H]]; [left | right; left | right; right]; trivial.
  - intros Hin. apply H. now right.
  - now rewrite Hstep.
Qed.

Lemma main_loop_counts args : forall r,
  let r' := fold_left (main_step isdecimal) args r in
  files_processed_count r' + files_skipped_count r'
    <= files_processed_count r + files_skipped_count r + length args.
Proof.
  induction args as [|p args IH]; intros r; simpl; [lia|].
  specialize (IH (main_step isdecimal r p)). simpl in IH.
  pose proof (main_step_counts r p). lia.
Qed.

End MainLoop.



(** X12.  The two counters: each argument adds at most one to one of
    them, so their sum is at most the number of arguments; without an
    argument the script prints its usage and exits with code 1. *)
Theorem main_counters (isdecimal : char -> bool) (argv : list str) (fs : file_system) :
  (length argv < 2 -> main isdecimal argv fs = Exited 1 [Usage]) /\
  (forall r, main isdecimal argv fs = Finished r ->
     files_processed_count r + files_skipped_count r <= length argv - 1 /\
     exists out, printed r =
       out ++ [Summary (files_processed_count r) (files_skipped_count r)]).
Proof.
  unfold main. split.
  - intros H. destruct (Nat.ltb_spec (length argv) 2); [reflexivity | lia].
  - intros r. destruct (Nat.ltb_spec (length argv) 2); [discriminate|].
    intros [= <-]. cbn [files_processed_count files_skipped_count printed]. split.
    + pose proof (main_loop_counts isdecimal (tl argv) (Run fs [] 0 0)) as Hc.
      cbn [files_processed_count files_skipped_count] in Hc.
      destruct argv as [|a args]; simpl in *; lia.
    + eexists. reflexivity.
Qed.

Lemma main_counters_witness :
  main ascii_digit [py "transform_markdown.py"] (fun _ => None) = Exited 1 [Usage].
Proof.
  apply (main_counters ascii_digit [py "transform_markdown.py"] (fun _ => None)).
  simpl. lia.
Defined.

Section MainRuns.

Variable isdecimal : char -> bool.

Lemma starts_with_file_path_read_text content :
  starts_with_file_path (read_text content) = starts_with_file_path content.
Proof. unfold starts_with_file_path. now rewrite splitlines_read_text. Qed.

(** What an iteration does to the file it is given, when this is a report
    that can be written. *)
Lemma main_step_writes r p c :
  endswith (py ".md") p = true ->
  files r p = Some (Text c Succeeds) ->
  check_if_transformed (reading_of c) = false ->
  files (main_step isdecimal r p) p = Some (Text (transform_content isdecimal c) Succeeds) /\
  files_processed_count (main_step isdecimal r p) = S (files_processed_count r).
Proof.
  intros Hmd Hf Hc. unfold main_step. rewrite Hmd, Hf. cbn [negb lines_of].
  rewrite Hc. cbn [files files_processed_count]. rewrite update_same.
  split; [|reflexivity]. unfold transform_content, processed_of.
  now rewrite splitlines_read_text.
Qed.

(** A report that starts with a File Path line is settled once an
    iteration has been given it. *)
Lemma main_step_settles r p :
  endswith (py ".md") p = true ->
  settled (files r p) \/
  (exists c, files r p = Some (Text c Succeeds) /\ starts_with_file_path c = true) ->
  settled (files (main_step isdecimal r p) p).
Proof.
  intros Hmd [H|(c & Hf & Hs)]; [now rewrite main_step_settled|].
  destruct (check_if_transformed (reading_of c)) eqn:Hc.
  - rewrite main_step_settled; rewrite Hf; exact Hc.
  - destruct (main_step_writes r p c Hmd Hf Hc) as [-> _].
    cbn [settled lines_of]. now rewrite check_reading_of_output.
Qed.

Lemma main_loop_settles args : forall r,
  (forall p, In p args -> endswith (py ".md") p = true ->
     settled (files r p) \/
     exists c, files r p = Some (Text c Succeeds) /\ starts_with_file_path c = true) ->
  forall p, In p args -> endswith (py ".md") p = true ->
    settled (files (fold_left (main_step isdecimal) args r) p).
Proof.
  induction args as [|a args IH]; intros r H p Hin Hmd; [destruct Hin|].
  simpl fold_left.
  assert (Hkeep : forall q, In q (a :: args) -> endswith (py ".md") q = true ->
            settled (files (main_step isdecimal r a) q) \/
            exists c, files (main_step isdecimal r a) q = Some (Text c Succeeds)
                      /\ starts_with_file_path c = true).
  { intros q Hq Hqmd. destruct (str_eqb q a) eqn:E.
    - apply str_eqb_eq in E. subst q. left. apply main_step_settles; auto.
    - rewrite main_step_other by assumption. auto. }
  destruct Hin as [->|Hin].
  - destruct (Hkeep p (or_introl eq_refl) Hmd) as [Hs|(c & Hf & Hs)].
    + rewrite main_loop_files; [exact Hs | now right; right].
    + pose proof (main_step_settles r p Hmd (H p (or_introl eq_refl) Hmd)) as Hs'.
      rewrite main_loop_files; [exact Hs' | now right; right].
  - apply IH; trivial. intros q Hq Hqmd. apply Hkeep; [now right | exact Hqmd].
Qed.

(** When every argument is settled, the loop writes nothing. *)
Lemma main_loop_idle args : forall r,
  (forall p, In p args -> endswith (py ".md") p = true -> settled (files r p)) ->
  files (fold_left (main_step isdecimal) args r) = files r /\
  files_processed_count (fold_left (main_step isdecimal) args r) = files_processed_count r.
Proof.
  induction args as [|a args IH]; intros r H; [now split|].
  simpl fold_left.
  assert (Hstep : files (main_step isdecimal r a) = files r /\
                  files_processed_count (main_step isdecimal r a) = files_processed_count r).
  { unfold main_step. destruct (endswith (py ".md") a) eqn:Hmd; [|now split].
    specialize (H a (or_introl eq_refl) Hmd). cbn [negb].
    destruct (files r a) as [[content w|seen]|]; simpl in H; [| |now split].
    - cbn [lines_of]. rewrite H. now split.
    - now destruct (check_if_transformed (lines_of (Broken seen))). }
  destruct Hstep as [Hf Hc].
  destruct (IH (main_step isdecimal r a)) as [IH1 IH2].
  - intros p Hp Hmd. rewrite Hf. apply H; [now right | exact Hmd].
  - split; [now rewrite IH1 | now rewrite IH2].
Qed.

Lemma main_loop_writes args : forall r p c,
  In p args -> endswith (py ".md") p = true ->
  files r p = Some (Text c Succeeds) ->
  check_if_transformed (reading_of c) = false ->
  starts_with_file_path c = true ->
  files (fold_left (main_step isdecimal) args r) p
  = Some (Text (transform_content isdecimal c) Succeeds).
Proof.
  induction args as [|a args IH]; intros r p c Hin Hmd Hf Hc Hs; [destruct Hin|].
  simpl fold_left. destruct (str_eqb p a) eqn:E.
  - apply str_eqb_eq in E. subst a.
    destruct (main_step_writes r p c Hmd Hf Hc) as [Hw _].
    rewrite main_loop_files; [exact Hw|]. right. right. rewrite Hw.
    cbn [settled lines_of]. now rewrite check_reading_of_output.
  - destruct Hin as [->|Hin]; [now rewrite (proj2 (str_eqb_eq p p) eq_refl) in E|].
    apply IH; trivial. now rewrite main_step_other.
Qed.

End MainRuns.

(** X13.  A report that starts with a File Path line, is not yet
    transformed, can be written and is named by an argument ending in [.md]
    holds, when the script ends, what [transform_content] returns for its
    text, also when it is named more than once. *)
Theorem main_transforms_report (isdecimal : char -> bool) (argv : list str)
    (fs : file_system) (r : run) (p c : str) :
  main isdecimal argv fs = Finished r ->
  In p (tl argv) -> endswith (py ".md") p = true ->
  fs p = Some (Text c Succeeds) ->
  check_if_transformed (reading_of c) = false ->
  starts_with_file_path c = true ->
  files r p = Some (Text (transform_content isdecimal c) Succeeds).
Proof.
  unfold main. destruct (length argv <? 2); [discriminate|].
  intros [= <-] Hin Hmd Hf Hc Hs. cbn [files].
  now apply main_loop_writes.
Qed.

(** X14.  When every argument ending in [.md] is missing, unreadable,
    already transformed or a writable report that starts with a File Path
    line, a second run of the script with the same arguments writes no
    file: the files are those the first run left and the counter of
    processed files is 0. *)
Theorem main_second_run (isdecimal : char -> bool) (argv : list str)
    (fs : file_system) (r1 : run) :
  (forall p, In p (tl argv) -> endswith (py ".md") p = true ->
     settled (fs p) \/
     exists c, fs p = Some (Text c Succeeds) /\ starts_with_file_path c = true) ->
  main isdecimal argv fs = Finished r1 ->
  exists r2, main isdecimal argv (files r1) = Finished r2 /\
             files r2 = files r1 /\ files_processed_count r2 = 0.
Proof.
  intros H. unfold main. destruct (length argv <? 2); [discriminate|].
  intros [= <-]. cbn [files]. eexists. split; [reflexivity|].
  cbn [files files_processed_count].
  apply (main_loop_idle isdecimal (tl argv)
           (Run (files (fold_left (main_step isdecimal) (tl argv) (Run fs [] 0 0))) [] 0 0)).
  cbn [files]. intros p Hp Hmd. now apply main_loop_settles.
Qed.

Lemma main_transforms_report_witness :
  exists r, main ascii_digit example_argv example_files = Finished r /\
    files r (py "a.md") = Some (Text (transform_content ascii_digit scenario_input) Succeeds).
Proof.
  eexists. split; [reflexivity|].
  apply (main_transforms_report ascii_digit example_argv example_files _ (py "a.md")
           scenario_input); try reflexivity.
  simpl. auto.
Defined.

Lemma main_second_run_witness :
  exists r1 r2,
    main ascii_digit example_argv example_files = Finished r1 /\
    main ascii_digit example_argv (files r1) = Finished r2 /\
    files r2 = files r1 /\ files_processed_count r2 = 0.
Proof.
  eexists.
  match goal with
  | |- exists r2, main _ _ _ = Finished ?r1 /\ _ =>
      destruct (main_second_run ascii_digit example_argv example_files r1) as (r2 & H)
  end.
  - intros p Hin Hmd. simpl in Hin.
    destruct Hin as [<-|[<-|[<-|[<-|[<-|[]]]]]]; try discriminate.
    + right. exists scenario_input. now split.
    + left. reflexivity.
    + right. exists scenario_input. now split.
    + left. exact I.
  - reflexivity.
  - exists r2. split; [reflexivity | exact H].
Defined.

(** ** The substitution of newlines, and the flags, on their own *)

Lemma flush_newlines_length n : length (flush_newlines n) <= n.
Proof.
  unfold flush_newlines. destruct (Nat.leb_spec 3 n); [simpl; lia|].
  now rewrite repeat_length.
Qed.

Lemma sub_newlines_from_length s : forall n,
  length (sub_newlines_from n s) <= n + length s.
Proof.
  induction s as [|c r IH]; intros n; simpl.
  - pose proof (flush_newlines_length n). lia.
  - destruct (c =? LF)%N.
    + specialize (IH (S n)). lia.
    + rewrite length_app. simpl. specialize (IH 0).
      pose proof (flush_newlines_length n). lia.
Qed.

(** X15.  [re.sub] on runs of newlines, on any text: the result is never
    longer, a text is left as it is exactly when it has no three newlines
    in a row, and a second substitution changes nothing. *)
Theorem sub_newlines_spec (s : str) :
  length (sub_newlines s) <= length s /\
  (sub_newlines s = s <-> has_triple_newline s = false) /\
  sub_newlines (sub_newlines s) = sub_newlines s.
Proof.
  repeat split.
  - apply (sub_newlines_from_length s 0).
  - intros E. rewrite <- E. apply sub_newlines_no_triple.
  - apply sub_newlines_id.
  - apply sub_newlines_id, sub_newlines_no_triple.
Qed.

Lemma sub_newlines_spec_witness :
  sub_newlines (py "a" ++ LF :: LF :: py "b") = py "a" ++ LF :: LF :: py "b".
Proof.
  destruct (sub_newlines_spec (py "a" ++ LF :: LF :: py "b")) as (_ & H & _).
  apply H. reflexivity.
Defined.

(** X16.  The two section flags are never set together: not after any
    number of lines of the first loop, and not after any number of lines of
    the second loop, which starts with the flags the first loop ends with. *)
Theorem flags_never_both (isdecimal : char -> bool) (content : str) (n : nat) :
  flags_ok (fst (pass1 no_section (firstn n (splitlines content)))) /\
  flags_ok (section (pass2 isdecimal
                       (State2 (fst (pass1 no_section (splitlines content))) false [])
                       (firstn n (snd (pass1 no_section (splitlines content)))))).
Proof.
  split.
  - now apply pass1_flags_ok.
  - apply pass2_flags_ok. cbn [section]. now apply pass1_flags_ok.
Qed.
